(** * main_story.py: training and evaluation driver of the ProPara conversion task

    A shallow embedding of [main_story.py]: the loss bookkeeping of the
    training loop, gradient accumulation, the per-epoch evaluation and
    checkpoint rule, the sequence construction of [test_model_conversion]
    and the command-line driver [main].

    Numbers that the program holds as Python floats or 0-dimensional
    tensors (losses, metrics, learning rate) are rationals [Q]; integers
    are [Z]; text is [string].  Calls into torch, transformers and the
    repository's other modules ([data_utils], [models], [eval]) are the
    fields of the class [Collaborators]; they are taken to return.
    [make_timestep_sequence] of [data_utils] is one of them: the driver
    only drops the first element of what it returns and counts the
    rest. *)

From Stdlib Require Import ZArith QArith List Bool Ascii String Lia.
Import ListNotations.

Set Implicit Arguments.

(** ** Exceptions *)

Inductive exn : Type :=
| ZeroDivisionError
| AttributeError
| IndexError
| FileNotFoundError
| NotADirectoryError
| FileExistsError
| ValueError.

(** ** The batch loss (train, lines 102-117) *)

(** [total_loss] starts as the Python integer [0] and becomes a tensor
    as soon as one head loss is added to it. *)
Inductive pyval : Type :=
| PyNum (q : Q)
| Tensor (q : Q).

Definition value (v : pyval) : Q :=
  match v with PyNum q => q | Tensor q => q end.

Definition is_tensor (v : pyval) : bool :=
  match v with PyNum _ => false | Tensor _ => true end.

(** The three optional head losses returned by the model. *)
Definition losses : Type := (option Q * option Q * option Q)%type.

(** [if losses[i] is not None: total_loss += losses[i]] *)
Definition add_if_present (acc : pyval) (l : option Q) : pyval :=
  match l with
  | Some t => Tensor (value acc + t)
  | None => acc
  end.

(** Lines 102-113. *)
Definition total_loss (ls : losses) : pyval :=
  let '(l0, l1, l2) := ls in
  add_if_present (add_if_present (add_if_present (PyNum 0) l0) l1) l2.

(** Lines 115-116: [if args.gradient_accumulation_steps > 1:
    total_loss = total_loss / args.gradient_accumulation_steps]. *)
Definition scale (N : Z) (v : pyval) : pyval :=
  if (1 <? N)%Z then
    match v with
    | PyNum q => PyNum (q / inject_Z N)
    | Tensor q => Tensor (q / inject_Z N)
    end
  else v.

(** Line 117: [total_loss.backward()] exists on tensors only. *)
Definition backward_arg (v : pyval) : exn + Q :=
  match v with
  | Tensor q => inr q
  | PyNum _ => inl AttributeError
  end.

(** The head losses that are present, in head order. *)
Definition present (ls : losses) : list Q :=
  let '(l0, l1, l2) := ls in
  (match l0 with Some t => [t] | None => [] end) ++
  (match l1 with Some t => [t] | None => [] end) ++
  (match l2 with Some t => [t] | None => [] end).

Definition Qsum (l : list Q) : Q := fold_right Qplus 0 l.

Definition some_present (ls : losses) : bool :=
  match present ls with [] => false | _ :: _ => true end.

(** ** Command-line arguments (main, lines 142-192) *)

Inductive model_choice : Type := BaselineMixed | TopDown.

Definition model_name (c : model_choice) : string :=
  match c with
  | BaselineMixed => "baseline-mixed"
  | TopDown => "top-down"
  end.

Record args : Type := {
  output_dir : string;
  dataset_name : string;
  model : model_choice;
  max_train_data : Z;
  do_train : bool;
  do_eval : bool;
  per_gpu_train_batch_size : Z;
  per_gpu_eval_batch_size : Z;
  gradient_accumulation_steps : Z;
  learning_rate : Q;
  max_grad_norm : Q;
  num_train_epochs : Z;
  seed : Z;
  n_gpu : Z;
  device : string
}.

Definition set_output_dir (a : args) (d : string) : args :=
  {| output_dir := d; dataset_name := dataset_name a; model := model a;
     max_train_data := max_train_data a; do_train := do_train a;
     do_eval := do_eval a;
     per_gpu_train_batch_size := per_gpu_train_batch_size a;
     per_gpu_eval_batch_size := per_gpu_eval_batch_size a;
     gradient_accumulation_steps := gradient_accumulation_steps a;
     learning_rate := learning_rate a; max_grad_norm := max_grad_norm a;
     num_train_epochs := num_train_epochs a; seed := seed a;
     n_gpu := n_gpu a; device := device a |}.

(** Lines 191-192: [args.n_gpu = 1; args.device = 'cuda:0']. *)
Definition set_device (a : args) : args :=
  {| output_dir := output_dir a; dataset_name := dataset_name a;
     model := model a; max_train_data := max_train_data a;
     do_train := do_train a; do_eval := do_eval a;
     per_gpu_train_batch_size := per_gpu_train_batch_size a;
     per_gpu_eval_batch_size := per_gpu_eval_batch_size a;
     gradient_accumulation_steps := gradient_accumulation_steps a;
     learning_rate := learning_rate a; max_grad_norm := max_grad_norm a;
     num_train_epochs := num_train_epochs a; seed := seed a;
     n_gpu := 1; device := "cuda:0" |}.

(** ** The file system as the driver sees it *)

Inductive path_status : Type :=
| Absent
| RegularFile
| Directory (entries : list string).

Definition path_exists (s : path_status) : bool :=
  match s with Absent => false | _ => true end.

Definition is_regular_file (s : path_status) : bool :=
  match s with RegularFile => true | _ => false end.

(** Paths are taken as they are written.  The directories above a path
    are its prefixes that end before a "/": for "a/b/c" they are "a"
    and "a/b". *)
Fixpoint ancestors_from (above p : string) : list string :=
  match p with
  | EmptyString => []
  | String c rest =>
      (if Ascii.eqb c "/"
       then match above with EmptyString => [] | _ => [above] end
       else []) ++ ancestors_from (above ++ String c EmptyString) rest
  end.

Definition ancestors (p : string) : list string := ancestors_from "" p.

(** The part of [p] before its first "/". *)
Fixpoint first_component (p : string) : string :=
  match p with
  | EmptyString => EmptyString
  | String c rest => if Ascii.eqb c "/" then EmptyString else String c (first_component rest)
  end.

(** The entry of the directory [dir] through which [p] is reached. *)
Definition entry_towards (dir p : string) : string :=
  first_component
    (substring (S (String.length dir)) (String.length p - S (String.length dir)) p).

(** The file system after [os.makedirs(p)] has succeeded: [p] is an
    empty directory, and every directory above it exists and lists the
    entry that leads to [p]. *)
Definition with_directory (f : string -> path_status) (p : string) : string -> path_status :=
  fun q =>
    if String.eqb q p then Directory []
    else if existsb (String.eqb q) (ancestors p) then
      match f q with
      | Directory entries =>
          if existsb (String.eqb (entry_towards q p)) entries then Directory entries
          else Directory (entries ++ [entry_towards q p])
      | _ => Directory [entry_towards q p]
      end
    else f q.

(** ** Seeds

    [np.random.seed] takes seeds between 0 and 2**32 - 1. *)
Definition numpy_seed_ok (s : Z) : bool := ((0 <=? s) && (s <=? 4294967295))%Z.

(** ** Sequence construction (test_model_conversion, lines 33-46) *)

(** Python's [seq[1:]]. *)
Definition drop_first {T : Type} (l : list T) : list T := tl l.

(** Lines 37-42: [para_tokens = [w for w in question_tokens]] followed by
    [para_tokens += sent] for every sentence. *)
Definition para_tokens {T : Type}
    (question_tokens : list T) (sentence_tokens : list (list T)) : list T :=
  fold_left (fun acc sent => acc ++ sent) sentence_tokens question_tokens.

(** One record of the conversion data sets. *)
Record sample (S : Type) : Type := {
  story_A_sentences : list string;
  story_B_sentences : list string;
  possible_participants_converted_to : list string;
  participant_converted : string;
  compact_states : list S
}.

(** The raw predictions: per sample, per entity, three probability
    vectors. *)
Definition predictions : Type := list (list (list Q * list Q * list Q)).

(** ** Random generators and gradients *)

(** The generators that [set_seed] seeds. *)
Record rngs (G : Type) : Type := {
  py_random : G;
  np_random : G;
  torch_cpu : G;
  torch_cuda : G
}.

(** One [total_loss.backward()] call: the batch it came from, the value
    of [global_step] at the call and the loss that was differentiated. *)
Record contribution (B : Type) : Type := {
  at_step : Z;
  on_batch : B;
  scaled_loss : Q
}.

(** The [.grad] buffers of the parameters: the backward calls summed
    into them since they were last reset, and the ceiling they were
    clipped to, if any. *)
Record gradients (B : Type) : Type := {
  contributions : list (contribution B);
  clipped : option Q
}.

Definition no_gradients {B : Type} : gradients B :=
  {| contributions := []; clipped := None |}.

(** ** What the program does to the outside

    Printing, writing or appending to a file and the calls of the model
    and the optimizer are recorded as events; a write inside the output
    directory is taken to succeed. *)

Inductive event : Type :=
| PrintWarning (dir : string)
| Makedirs (dir : string)
| CopyScript (file : string) (dir : string)
| SaveArgs (dir : string)
| PrintParameterCount
| Forward (training : bool) (grad_enabled : bool)
| DumpPredictions (path : string) (preds : predictions)
| PrintResults (name : string) (iteration : Z) (accuracy consistency verifiability : Q)
| AppendResults (path : string) (accuracy consistency verifiability : Q)
| Backward (loss : Q)
| ClipGradNorm (max_norm : Q)
| OptimizerStep
| SchedulerStep
| ZeroGrad
| PrintLoss (it_total_loss : Q)
| SaveCheckpoint (path : string)
| LoadCheckpoint (path : string).

(** ** The libraries and sibling modules the program calls *)

Class Collaborators : Type := {
  state_dict : Type;
  batch : Type;
  generator : Type;
  optimizer : Type;
  token : Type;
  timestep_row : Type;
  states : Type;
  converted : Type;
  (* str.lower and the RoBERTa tokenizer *)
  lower : string -> string;
  tokenize : bool -> string -> list token;
  convert_token_to_id : token -> Z;
  cls_token_id : Z;
  sep_token_id : Z;
  (* f-string rendering of numbers *)
  str_int : Z -> string;
  str_float : Q -> string;
  (* data_utils: make_timestep_sequence, read_json_data, ConversionDataset
     and its DataLoader *)
  make_timestep_sequence : list token -> list (list token) -> list timestep_row;
  read_json_data : string -> list (sample states);
  train_set_len : Z -> Z;
  data_loader : Z -> Z -> rngs generator -> list batch * rngs generator;
  (* random.seed, np.random.seed, torch.manual_seed, torch.cuda.manual_seed_all *)
  seed_random : Z -> generator;
  seed_numpy : Z -> generator;
  seed_torch : Z -> generator;
  seed_cuda : Z -> generator;
  (* models: from_pretrained gives the parameters and the module's mode *)
  from_pretrained : model_choice -> rngs generator -> (state_dict * bool) * rngs generator;
  forward : state_dict -> bool -> batch -> rngs generator -> losses * rngs generator;
  infer : state_dict -> bool -> list (list Z) -> list (list Z) ->
          list timestep_row -> list timestep_row -> rngs generator ->
          (list (list Q) * list (list Q) * list (list Q)) * rngs generator;
  softmax : list Q -> list Q;
  (* AdamW with its linear schedule *)
  init_optimizer : args -> state_dict -> Z -> optimizer;
  optimizer_step : optimizer -> state_dict -> gradients batch -> optimizer * state_dict;
  scheduler_step : optimizer -> optimizer;
  (* eval: conversion and the official scorer; the first argument of the
     conversion is the content of the predictions file *)
  convert_output_format_complete_conversion : predictions -> string -> converted;
  official_evaluate : converted -> string -> Q * Q * Q
}.

Section Program.

Context {C : Collaborators}.

(** ** The state of the process *)

Record world : Type := {
  fs : string -> path_status;
  checkpoints : string -> option state_dict;
  rng : rngs generator;
  grad_enabled : bool;
  trace : list event
}.

(** The [nn.Module]: parameters, their gradients and the mode flag. *)
Record module : Type := {
  params : state_dict;
  grad : gradients batch;
  training : bool
}.

Definition set_fs (w : world) (f : string -> path_status) : world :=
  {| fs := f; checkpoints := checkpoints w; rng := rng w;
     grad_enabled := grad_enabled w; trace := trace w |}.

Definition set_checkpoints (w : world) (c : string -> option state_dict) : world :=
  {| fs := fs w; checkpoints := c; rng := rng w;
     grad_enabled := grad_enabled w; trace := trace w |}.

Definition set_rng (w : world) (r : rngs generator) : world :=
  {| fs := fs w; checkpoints := checkpoints w; rng := r;
     grad_enabled := grad_enabled w; trace := trace w |}.

Definition set_grad_enabled (w : world) (b : bool) : world :=
  {| fs := fs w; checkpoints := checkpoints w; rng := rng w;
     grad_enabled := b; trace := trace w |}.

Definition set_trace (w : world) (t : list event) : world :=
  {| fs := fs w; checkpoints := checkpoints w; rng := rng w;
     grad_enabled := grad_enabled w; trace := t |}.

Definition set_training (m : module) (b : bool) : module :=
  {| params := params m; grad := grad m; training := b |}.

Definition set_grad (m : module) (g : gradients batch) : module :=
  {| params := params m; grad := g; training := training m |}.

Definition set_params (m : module) (p : state_dict) : module :=
  {| params := p; grad := grad m; training := training m |}.

(** ** Computations: state passing with exceptions; the state survives
    an exception, as the files and the output of a crashed run do. *)

Definition M (A : Type) : Type := world -> (exn + A) * world.

Definition ret {A : Type} (x : A) : M A := fun w => (inr x, w).

Definition bind {A B : Type} (c : M A) (k : A -> M B) : M B :=
  fun w =>
    match c w with
    | (inl e, w') => (inl e, w')
    | (inr x, w') => k x w'
    end.

Definition raise {A : Type} (e : exn) : M A := fun w => (inl e, w).

Definition emit (e : event) : M unit :=
  fun w => (inr tt, set_trace w (trace w ++ [e])).

Definition draw {A : Type} (f : rngs generator -> A * rngs generator) : M A :=
  fun w => let '(x, r) := f (rng w) in (inr x, set_rng w r).

Definition get_grad_enabled : M bool := fun w => (inr (grad_enabled w), w).

(** [with torch.no_grad(): c]; the previous mode comes back on exit,
    also when [c] raises. *)
Definition no_grad {A : Type} (c : M A) : M A :=
  fun w =>
    let '(r, w') := c (set_grad_enabled w false) in
    (r, set_grad_enabled w' (grad_enabled w)).

Notation "x <- c ;; k" := (bind c (fun x => k))
  (at level 61, c at next level, right associativity).
Notation "c ;;; k" := (bind c (fun _ => k))
  (at level 61, right associativity).

Fixpoint for_each {A B : Type} (f : A -> M B) (l : list A) : M (list B) :=
  match l with
  | [] => ret []
  | x :: rest =>
      y <- f x ;;
      ys <- for_each f rest ;;
      ret (y :: ys)
  end.

(** ** test_model_conversion (lines 24-64) *)

(** Line 43: the start marker, the ids of the tokens, the end marker. *)
Definition para_ids (question_tokens : list token) (sentence_tokens : list (list token)) : list Z :=
  [cls_token_id] ++ map convert_token_to_id (para_tokens question_tokens sentence_tokens)
    ++ [sep_token_id].

(** Line 45: [make_timestep_sequence(question_tokens, sentence_tokens)[1:]]. *)
Definition timestep_ids (question_tokens : list token) (sentence_tokens : list (list token))
    : list timestep_row :=
  drop_first (make_timestep_sequence question_tokens sentence_tokens).

(** Line 33; the index into [possible_participants_converted_to] raises
    when the list is too short. *)
Definition question_of (s : sample states) (entity_id : nat) : M string :=
  match nth_error (possible_participants_converted_to s) entity_id with
  | Some candidate =>
      ret (participant_converted s ++ "?!</s>" ++ candidate ++ "?!</s>")%string
  | None => raise IndexError
  end.

(** Line 55: [F.softmax(outputs[k], dim=1)[0].tolist()]. *)
Definition first_row_softmax (rows : list (list Q)) : M (list Q) :=
  match map softmax rows with
  | [] => raise IndexError
  | r :: _ => ret r
  end.

(** Lines 34-51: the token ids and the timestep sequences of the two
    variants, the ids repeated once per element of the timestep
    sequence. *)
Definition entity_inputs (question : string) (s : sample states)
    : list (list Z) * list (list Z) * list timestep_row * list timestep_row :=
  let question_tokens := tokenize false (lower question) in
  let sentence_tokens_A := map (fun sent => tokenize true (lower sent)) (story_A_sentences s) in
  let sentence_tokens_B := map (fun sent => tokenize true (lower sent)) (story_B_sentences s) in
  let para_ids_A := para_ids question_tokens sentence_tokens_A in
  let para_ids_B := para_ids question_tokens sentence_tokens_B in
  let timestep_ids_A := timestep_ids question_tokens sentence_tokens_A in
  let timestep_ids_B := timestep_ids question_tokens sentence_tokens_B in
  let batch_input_A := repeat para_ids_A (List.length timestep_ids_A) in
  let batch_input_B := repeat para_ids_B (List.length timestep_ids_B) in
  (batch_input_A, batch_input_B, timestep_ids_A, timestep_ids_B).

(** Lines 33-55, the body of the loop over the entities. *)
Definition entity_prediction (m : module) (s : sample states) (entity_id : nat)
    : M (list Q * list Q * list Q) :=
  question <- question_of s entity_id ;;
  let '(batch_input_A, batch_input_B, timestep_ids_A, timestep_ids_B) :=
    entity_inputs question s in
  g <- get_grad_enabled ;;
  emit (Forward (training m) g) ;;;
  outputs <- draw (infer (params m) (training m) batch_input_A batch_input_B
                     timestep_ids_A timestep_ids_B) ;;
  p0 <- first_row_softmax (fst (fst outputs)) ;;
  p1 <- first_row_softmax (snd (fst outputs)) ;;
  p2 <- first_row_softmax (snd outputs) ;;
  ret (p0, p1, p2).

Definition sample_prediction (m : module) (s : sample states)
    : M (list (list Q * list Q * list Q)) :=
  for_each (entity_prediction m s) (seq 0 (List.length (compact_states s))).

(** Returns (verifiability, consistency, accuracy). *)
Definition test_model_conversion (a : args) (m : module) (test_set : list (sample states))
    (name : string) (iteration : Z) : M (Q * Q * Q) :=
  all_preds <- for_each (sample_prediction m) test_set ;;
  let path := (output_dir a ++ "/" ++ name ++ "_" ++ str_int iteration ++ "_output.json")%string in
  emit (DumpPredictions path all_preds) ;;;
  let reference := ("../data/Propara/" ++ name ++ ".json")%string in
  let converted_results := convert_output_format_complete_conversion all_preds reference in
  let '(accuracy, consistency, verifiability) := official_evaluate converted_results reference in
  emit (PrintResults name iteration accuracy consistency verifiability) ;;;
  ret (verifiability, consistency, accuracy).

(** ** train (lines 69-139) *)

Record loop_state : Type := {
  mdl : module;
  opt : optimizer;
  global_step : Z;
  best_verifiability : Q
}.

Definition set_mdl (ls : loop_state) (m : module) : loop_state :=
  {| mdl := m; opt := opt ls; global_step := global_step ls;
     best_verifiability := best_verifiability ls |}.

(** Python's [x // y] and [x % y] on integers. *)
Definition floor_div (x y : Z) : M Z :=
  if (y =? 0)%Z then raise ZeroDivisionError else ret (x / y)%Z.

Definition modulo (x y : Z) : M Z :=
  if (y =? 0)%Z then raise ZeroDivisionError else ret (x mod y)%Z.

Definition accumulate (g : gradients batch) (c : contribution batch) : gradients batch :=
  {| contributions := contributions g ++ [c]; clipped := clipped g |}.

(** Lines 120-123. *)
Definition optimizer_update (a : args) (m : module) (o : optimizer) : M (module * optimizer) :=
  emit (ClipGradNorm (max_grad_norm a)) ;;;
  let g := {| contributions := contributions (grad m); clipped := Some (max_grad_norm a) |} in
  emit OptimizerStep ;;;
  let stepped := optimizer_step o (params m) g in
  emit SchedulerStep ;;;
  let o' := scheduler_step (fst stepped) in
  emit ZeroGrad ;;;
  ret ({| params := snd stepped; grad := no_gradients; training := training m |}, o').

(** Lines 102-126, the body of the loop over the batches. *)
Definition batch_iteration (a : args) (ls : loop_state) (it_total_loss : Q) (b : batch)
    : M (loop_state * Q) :=
  g <- get_grad_enabled ;;
  emit (Forward (training (mdl ls)) g) ;;;
  head_losses <- draw (forward (params (mdl ls)) (training (mdl ls)) b) ;;
  let N := gradient_accumulation_steps a in
  match backward_arg (scale N (total_loss head_losses)) with
  | inl e => raise e
  | inr q =>
      emit (Backward q) ;;;
      let m1 := set_grad (mdl ls)
                  (accumulate (grad (mdl ls))
                     {| at_step := global_step ls; on_batch := b; scaled_loss := q |}) in
      r <- modulo (global_step ls + 1) N ;;
      stepped <- (if (r =? 0)%Z then optimizer_update a m1 (opt ls) else ret (m1, opt ls)) ;;
      ret ({| mdl := fst stepped; opt := snd stepped;
              global_step := (global_step ls + 1)%Z;
              best_verifiability := best_verifiability ls |},
           it_total_loss + q)
  end.

Fixpoint batch_loop (a : args) (ls : loop_state) (it_total_loss : Q) (bs : list batch)
    : M (loop_state * Q) :=
  match bs with
  | [] => ret (ls, it_total_loss)
  | b :: rest =>
      r <- batch_iteration a ls it_total_loss b ;;
      batch_loop a (fst r) (snd r) rest
  end.

(** Lines 92-97 and 130-135: [model.eval()], the evaluation under
    [torch.no_grad()], the line appended to the results log. *)
Definition evaluate_dev (a : args) (m : module) (dev_set : list (sample states))
    (iteration : Z) : M (module * Q) :=
  let m' := set_training m false in
  r <- no_grad (test_model_conversion a m' dev_set "dev_conversion" iteration) ;;
  let '(verifiability, consistency, accuracy) := r in
  emit (AppendResults (output_dir a ++ "/results_epoch_dev.json")
          accuracy consistency verifiability) ;;;
  ret (m', verifiability).

Definition torch_save (path : string) (p : state_dict) : M unit :=
  fun w =>
    (inr tt,
     set_trace
       (set_checkpoints w (fun q => if String.eqb q path then Some p else checkpoints w q))
       (trace w ++ [SaveCheckpoint path])).

(** Lines 137-139. *)
Definition save_if_best (a : args) (ls : loop_state) (verifiability : Q) : M loop_state :=
  if Qle_bool (best_verifiability ls) verifiability then
    torch_save (output_dir a ++ "/best_model") (params (mdl ls)) ;;;
    ret {| mdl := mdl ls; opt := opt ls; global_step := global_step ls;
           best_verifiability := verifiability |}
  else ret ls.

(** Lines 91-97: the evaluation before the first epoch. *)
Definition baseline_evaluation (a : args) (dev_set : list (sample states)) (ls : loop_state)
    (iteration : Z) : M loop_state :=
  if (iteration =? 0)%Z
  then r <- evaluate_dev a (mdl ls) dev_set 0 ;; ret (set_mdl ls (fst r))
  else ret ls.

(** Lines 91-139, the body of the loop over the epochs. *)
Definition train_epoch (a : args) (dev_set : list (sample states)) (ls : loop_state)
    (iteration : Z) : M loop_state :=
  ls0 <- baseline_evaluation a dev_set ls iteration ;;
  let ls1 := set_mdl ls0 (set_training (mdl ls0) true) in
  batches <- draw (data_loader (max_train_data a) (per_gpu_train_batch_size a)) ;;
  r <- batch_loop a ls1 0 batches ;;
  emit (PrintLoss (snd r)) ;;;
  e <- evaluate_dev a (mdl (fst r)) dev_set (iteration + 1) ;;
  save_if_best a (set_mdl (fst r) (fst e)) (snd e).

Fixpoint train_epochs (a : args) (dev_set : list (sample states)) (ls : loop_state)
    (iterations : list Z) : M loop_state :=
  match iterations with
  | [] => ret ls
  | iteration :: rest =>
      ls' <- train_epoch a dev_set ls iteration ;;
      train_epochs a dev_set ls' rest
  end.

(** [range(n)] *)
Definition range (n : Z) : list Z := map Z.of_nat (seq 0 (Z.to_nat n)).

Definition initial_loop_state (a : args) (m : module) (t_total : Z) : loop_state :=
  {| mdl := m; opt := init_optimizer a (params m) t_total;
     global_step := 0; best_verifiability := -1 |}.

Definition train (a : args) (m : module) : M loop_state :=
  let dev_set := read_json_data "../data/Propara/dev_conversion.json" in
  per_epoch <- floor_div (train_set_len (max_train_data a)) (gradient_accumulation_steps a) ;;
  let t_total := (per_epoch * num_train_epochs a)%Z in
  train_epochs a dev_set (initial_loop_state a m t_total) (range (num_train_epochs a)).

(** ** set_seed (lines 17-22) and main (lines 141-219) *)

(** [random.seed] takes any integer; [np.random.seed] on line 19 raises
    [ValueError] for a seed outside 0 .. 2**32 - 1, and the two torch
    generators are then not reached. *)
Definition set_seed (a : args) : M unit :=
  fun w =>
    if numpy_seed_ok (seed a) then
      (inr tt,
       set_rng w {| py_random := seed_random (seed a);
                    np_random := seed_numpy (seed a);
                    torch_cpu := seed_torch (seed a);
                    torch_cuda := if (0 <? n_gpu a)%Z then seed_cuda (seed a)
                                  else torch_cuda (rng w) |})
    else
      (inl ValueError,
       set_rng w {| py_random := seed_random (seed a);
                    np_random := np_random (rng w);
                    torch_cpu := torch_cpu (rng w);
                    torch_cuda := torch_cuda (rng w) |}).

Definition new_out_dir (a : args) : string :=
  (output_dir a ++ "/" ++ dataset_name a ++ "_" ++ model_name (model a)
   ++ "_epochs_" ++ str_int (num_train_epochs a)
   ++ "_lr_" ++ str_float (learning_rate a)
   ++ "_seed_" ++ str_int (seed a))%string.

Definition os_path_exists (p : string) : M bool :=
  fun w => (inr (path_exists (fs w p)), w).

Definition os_listdir (p : string) : M (list string) :=
  fun w =>
    match fs w p with
    | Directory entries => (inr entries, w)
    | RegularFile => (inl NotADirectoryError, w)
    | Absent => (inl FileNotFoundError, w)
    end.

(** [os.makedirs(p)]: [mkdir] raises [NotADirectoryError] when a
    component of the path above [p] is a regular file, and
    [FileExistsError] when [p] itself exists; otherwise [p] and the
    missing directories above it are created. *)
Definition os_makedirs (p : string) : M unit :=
  fun w =>
    if existsb (fun q => is_regular_file (fs w q)) (ancestors p) then
      (inl NotADirectoryError, w)
    else if path_exists (fs w p) then
      (inl FileExistsError, w)
    else
      (inr tt, set_trace (set_fs w (with_directory (fs w) p)) (trace w ++ [Makedirs p])).

(** Lines 184-186. *)
Definition choose_output_dir (a : args) : M args :=
  existing <- os_path_exists (new_out_dir a) ;;
  ret (if do_train a || (negb (do_train a) && existing)
       then set_output_dir a (new_out_dir a) else a).

(** Lines 188-189. *)
Definition warn_if_not_empty (a : args) : M unit :=
  existing <- os_path_exists (output_dir a) ;;
  if existing then
    entries <- os_listdir (output_dir a) ;;
    match entries with
    | [] => ret tt
    | _ :: _ => if do_train a then emit (PrintWarning (output_dir a)) else ret tt
    end
  else ret tt.

(** Lines 213-219. *)
Definition final_evaluation (a : args) (m : module) : M unit :=
  let path := (output_dir a ++ "/best_model")%string in
  loaded <- (fun w => match checkpoints w path with
                      | Some p => (inr p, set_trace w (trace w ++ [LoadCheckpoint path]))
                      | None => (inl FileNotFoundError, w)
                      end) ;;
  let m' := set_params m loaded in
  let test_set := read_json_data "../data/Propara/test_conversion.json" in
  r <- test_model_conversion a m' test_set "test_conversion" (-1) ;;
  let '(verifiability, consistency, accuracy) := r in
  emit (AppendResults (output_dir a ++ "/final_test_results.json")
          accuracy consistency verifiability).

(** Lines 191-219, what follows the warning. *)
Definition run (a0 : args) : M unit :=
  let a := set_device a0 in
  existing <- os_path_exists (output_dir a) ;;
  (if existing then ret tt else os_makedirs (output_dir a)) ;;;
  (if do_train a then
     emit (CopyScript "main_story.py" (output_dir a)) ;;;
     emit (CopyScript "data_utils.py" (output_dir a)) ;;;
     emit (CopyScript "models.py" (output_dir a)) ;;;
     emit (SaveArgs (output_dir a))
   else ret tt) ;;;
  set_seed a ;;;
  loaded <- draw (from_pretrained (model a)) ;;
  let m := {| params := fst loaded; grad := no_gradients; training := snd loaded |} in
  emit PrintParameterCount ;;;
  m' <- (if do_train a then ls <- train a m ;; ret (mdl ls) else ret m) ;;
  if do_eval a then final_evaluation a m' else ret tt.

Definition main (parsed : args) : M unit :=
  a <- choose_output_dir parsed ;;
  warn_if_not_empty a ;;;
  run a.

End Program.

(** ** A small instance of the collaborators, on which the program runs

    Parameters are the history of optimizer updates (each update lists
    the [global_step] values of the backward calls it applied), a batch
    is the triple of head losses the model reports for it, every epoch
    has the same three batches, the timestep sequence has one element
    for the start and one per sentence, and the scorer reads the number
    of updates from the first predicted vector. *)

Definition example_batches : list losses :=
  [ (Some 1, Some 1, Some 1); (Some (1 # 2), None, Some 1); (None, None, Some 2) ].

Definition example_sample : sample unit :=
  {| story_A_sentences := ["a b"%string];
     story_B_sentences := ["c"%string];
     possible_participants_converted_to := ["x"%string];
     participant_converted := "y"%string;
     compact_states := [tt] |}.

Definition example_verifiability (c : predictions) : Q :=
  match c with
  | ((q :: _, _, _) :: _) :: _ => if Qeq_bool q 3 then 1 # 4 else 1 # 2
  | _ => 0
  end.

Definition example : Collaborators :=
  {| state_dict := list (list Z);
     batch := losses;
     generator := Z;
     optimizer := Z;
     token := Ascii.ascii;
     timestep_row := nat;
     states := unit;
     converted := predictions;
     lower := fun s => s;
     tokenize := fun _ s => list_ascii_of_string s;
     convert_token_to_id := fun c => Z.of_nat (Ascii.nat_of_ascii c);
     cls_token_id := 0;
     sep_token_id := 2;
     str_int := fun _ => "n"%string;
     str_float := fun _ => "x"%string;
     make_timestep_sequence := fun _ sentence_tokens => seq 0 (S (List.length sentence_tokens));
     read_json_data := fun _ => [example_sample];
     train_set_len := fun _ => 3%Z;
     data_loader := fun _ _ r => (example_batches, r);
     seed_random := fun s => s;
     seed_numpy := fun s => s;
     seed_torch := fun s => s;
     seed_cuda := fun s => s;
     from_pretrained := fun _ r => (([], false), r);
     forward := fun _ _ b r => (b, r);
     infer := fun p _ _ _ _ _ r =>
       (([[inject_Z (Z.of_nat (List.length p))]], [[1]], [[1]]), r);
     softmax := fun l => l;
     init_optimizer := fun _ _ _ => 0%Z;
     optimizer_step := fun o p g => (o, p ++ [map (@at_step _) (contributions g)]);
     scheduler_step := fun o => (o + 1)%Z;
     convert_output_format_complete_conversion := fun p _ => p;
     official_evaluate := fun c _ => (1 # 2, 1 # 2, example_verifiability c) |}.

Definition example_args (train_flag eval_flag : bool) (N epochs : Z) : args :=
  {| output_dir := "out"; dataset_name := "propara-conversion";
     model := BaselineMixed; max_train_data := 496;
     do_train := train_flag; do_eval := eval_flag;
     per_gpu_train_batch_size := 1; per_gpu_eval_batch_size := 1;
     gradient_accumulation_steps := N; learning_rate := 5 # 1000000;
     max_grad_norm := 1; num_train_epochs := epochs; seed := 42;
     n_gpu := 0; device := "" |}.

(** A process that has just started: gradient tracking is on, nothing
    has been printed; [dir] gives the status of every path and [saved]
    the checkpoint files. *)
Definition started (C : Collaborators) (dir : string -> path_status)
    (saved : string -> option (@state_dict C)) (r : rngs (@generator C)) : @world C :=
  {| fs := dir; checkpoints := saved; rng := r; grad_enabled := true; trace := [] |}.

Definition example_rngs : rngs Z :=
  {| py_random := 0%Z; np_random := 0%Z; torch_cpu := 0%Z; torch_cuda := 0%Z |}.

Definition example_world (dir : string -> path_status) : @world example :=
  started example dir (fun _ => None) example_rngs.

Definition example_module : @module example :=
  {| params := ([] : @state_dict example); grad := no_gradients; training := false |}.

(** A process started in a directory tree where every path is a
    directory holding [best_model], with a checkpoint saved before. *)
Definition example_world_after_training : @world example :=
  started example (fun _ => Directory ["best_model"%string]) (fun _ => Some []) example_rngs.

(** Training for two epochs with an accumulation window of two. *)
Definition example_training_args : args := example_args true false 2 2.

Definition example_loop_state : @loop_state example :=
  initial_loop_state example_training_args example_module 0.

Definition example_dev_set : list (sample (@states example)) := [example_sample].

Definition example_first_epoch : (exn + @loop_state example) * @world example :=
  @train_epoch example example_training_args example_dev_set example_loop_state 0
    (example_world (fun _ => Absent)).

Definition example_after_first_epoch : @loop_state example :=
  match fst example_first_epoch with
  | inr ls => ls
  | inl _ => example_loop_state
  end.

(** The whole training run of the example, and the state it ends in. *)
Definition example_training_run : (exn + @loop_state example) * @world example :=
  @train example example_training_args example_module (example_world (fun _ => Absent)).

Definition example_trained : @loop_state example :=
  match fst example_training_run with
  | inr ls => ls
  | inl _ => example_loop_state
  end.

(** A sample with two entities and a single candidate. *)
Definition example_short_sample : sample unit :=
  {| story_A_sentences := ["a b"%string];
     story_B_sentences := ["c"%string];
     possible_participants_converted_to := ["x"%string];
     participant_converted := "y"%string;
     compact_states := [tt; tt] |}.

(** An evaluation of [test_set] by the example module in a fresh process. *)
Definition example_evaluation (test_set : list (sample (@states example)))
    : (exn + Q * Q * Q) * @world example :=
  @test_model_conversion example example_training_args example_module test_set
    "dev_conversion" 0 (example_world (fun _ => Absent)).





(** ** Reading a trace *)

Definition is_backward (e : event) : bool :=
  match e with Backward _ => true | _ => false end.

Definition is_optimizer_step (e : event) : bool :=
  match e with OptimizerStep => true | _ => false end.

Definition is_warning (e : event) : bool :=
  match e with PrintWarning _ => true | _ => false end.

Definition count (f : event -> bool) (t : list event) : Z :=
  Z.of_nat (List.length (filter f t)).

(** The values printed by line 128, one per epoch. *)
Definition epoch_losses (t : list event) : list Q :=
  flat_map (fun e => match e with PrintLoss q => [q] | _ => [] end) t.

(** The (mode, gradient tracking) pairs of the model calls. *)
Definition forward_flags (t : list event) : list (bool * bool) :=
  flat_map (fun e => match e with Forward m g => [(m, g)] | _ => [] end) t.

(** The calls of one training batch, in order. *)
Definition events_of_batch (a : args) (training_mode tracking : bool) (q : Q) (stepping : bool)
    : list event :=
  [Forward training_mode tracking; Backward q] ++
  (if stepping
   then [ClipGradNorm (max_grad_norm a); OptimizerStep; SchedulerStep; ZeroGrad]
   else []).

(** What an evaluation may do: call the model in the given mode and
    with the given gradient tracking, write the predictions, print. *)
Definition eval_event (mode tracking : bool) (e : event) : Prop :=
  match e with
  | Forward m g => m = mode /\ g = tracking
  | DumpPredictions _ _ => True
  | PrintResults _ _ _ _ _ => True
  | _ => False
  end.

Definition log_event (mode tracking : bool) (e : event) : Prop :=
  match e with
  | AppendResults _ _ _ _ => True
  | _ => eval_event mode tracking e
  end.

Definition is_append_results (e : event) : bool :=
  match e with AppendResults _ _ _ _ => true | _ => false end.

Definition is_print_loss (e : event) : bool :=
  match e with PrintLoss _ => true | _ => false end.

Definition is_dump (e : event) : bool :=
  match e with DumpPredictions _ _ => true | _ => false end.

Definition is_save (e : event) : bool :=
  match e with SaveCheckpoint _ => true | _ => false end.

Definition is_forward (e : event) : bool :=
  match e with Forward _ _ => true | _ => false end.

(** The losses handed to the backward pass, in order. *)
Definition backward_losses (t : list event) : list Q :=
  flat_map (fun e => match e with Backward q => [q] | _ => [] end) t.

(** The (iteration label, verifiability) pairs printed by line 62. *)
Definition printed_scores (t : list event) : list (Z * Q) :=
  flat_map (fun e => match e with PrintResults _ it _ _ v => [(it, v)] | _ => [] end) t.

(** A model call in the given mode and with the given tracking. *)
Definition forward_event (mode tracking : bool) (e : event) : Prop :=
  match e with
  | Forward m g => m = mode /\ g = tracking
  | _ => False
  end.

(** What the loop over the batches may do. *)
Definition batch_event (e : event) : Prop :=
  match e with
  | Forward _ _ => True
  | Backward _ => True
  | ClipGradNorm _ => True
  | OptimizerStep => True
  | SchedulerStep => True
  | ZeroGrad => True
  | _ => False
  end.

(** Line 60: the reference file of a data set. *)
Definition reference_file (name : string) : string :=
  ("../data/Propara/" ++ name ++ ".json")%string.

(** The [global_step] values of the batches since the last multiple of
    [N] below [g]: what the gradients hold after [g] batches. *)
Definition window (N g : Z) : list Z :=
  map (fun i => (g - g mod N + Z.of_nat i)%Z) (seq 0 (Z.to_nat (g mod N))).

Section Vocabulary.

Context {C : Collaborators}.

(** A computation that, started with gradient tracking [tracking],
    leaves the files, the checkpoints and the tracking mode as they
    were and only adds events satisfying [P] to the trace. *)
Definition frames (tracking : bool) (P : event -> Prop) {A : Type} (c : M A) : Prop :=
  forall w : world,
    grad_enabled w = tracking ->
    fs (snd (c w)) = fs w /\
    checkpoints (snd (c w)) = checkpoints w /\
    grad_enabled (snd (c w)) = tracking /\
    exists t : list event, trace (snd (c w)) = trace w ++ t /\ Forall P t.

(** The gradients hold the backward calls of the batches counted since
    the last multiple of [N], whatever epoch they belong to. *)
Definition pending_ok (N : Z) (ls : loop_state) : Prop :=
  (0 <= global_step ls)%Z /\
  map (@at_step batch) (contributions (grad (mdl ls))) = window N (global_step ls).

(** From [(ls, w)] to [(ls', w')] the batch counter has grown by the
    number of backward calls made in between, the optimizer has been
    stepped once for every multiple of [N] the counter has passed, and
    the gradients hold what is left of the current window. *)
Definition advances (N : Z) (ls : loop_state) (w : world) (ls' : loop_state) (w' : world)
    : Prop :=
  pending_ok N ls' /\
  (global_step ls' - global_step ls =
     count is_backward (trace w') - count is_backward (trace w))%Z /\
  (count is_optimizer_step (trace w') - count is_optimizer_step (trace w) =
     global_step ls' / N - global_step ls / N)%Z.

(** A computation that neither reads nor writes the generators. *)
Definition ignores_generators {A : Type} (c : M A) : Prop :=
  forall (w : world) (r : rngs generator),
    c (set_rng w r) = (fst (c w), set_rng (snd (c w)) r).

(** Two states of the process that differ at most in the generators. *)
Definition same_but_generators (w1 w2 : world) : Prop :=
  fs w1 = fs w2 /\ checkpoints w1 = checkpoints w2 /\
  grad_enabled w1 = grad_enabled w2 /\ trace w1 = trace w2.

(** A computation whose result, files, checkpoints and trace do not
    depend on the state the generators are in when it starts. *)
Definition reseeded {A : Type} (c : M A) : Prop :=
  forall (w : world) (r1 r2 : rngs generator),
    fst (c (set_rng w r1)) = fst (c (set_rng w r2)) /\
    same_but_generators (snd (c (set_rng w r1))) (snd (c (set_rng w r2))).

(** The same state with [p] printed before everything else. *)
Definition with_prefix (p : list event) (w : world) : world :=
  set_trace w (p ++ trace w).

(** A computation that never reads what has been printed so far. *)
Definition ignores_trace {A : Type} (c : M A) : Prop :=
  forall (w : world) (p : list event),
    c (with_prefix p w) = (fst (c w), with_prefix p (snd (c w))).

(** Line 57: the file the raw predictions are written to. *)
Definition predictions_file (a : args) (name : string) (iteration : Z) : string :=
  (output_dir a ++ "/" ++ name ++ "_" ++ str_int iteration ++ "_output.json")%string.

(** Lines 60-61: (accuracy, consistency, verifiability) of predictions. *)
Definition scored (name : string) (preds : predictions) : Q * Q * Q :=
  official_evaluate
    (convert_output_format_complete_conversion preds (reference_file name))
    (reference_file name).

(** The events of an evaluation that has got its predictions. *)
Definition evaluation_report (a : args) (name : string) (iteration : Z) (preds : predictions)
    : list event :=
  [DumpPredictions (predictions_file a name iteration) preds;
   PrintResults name iteration (fst (fst (scored name preds))) (snd (fst (scored name preds)))
     (snd (scored name preds))].

(** A computation that leaves the file system and the tracking mode as
    they were, also when it raises, and writes no checkpoint file other
    than [path]. *)
Definition touches_only (path : string) {A : Type} (c : M A) : Prop :=
  forall w : world,
    fs (snd (c w)) = fs w /\
    grad_enabled (snd (c w)) = grad_enabled w /\
    forall q : string, q <> path -> checkpoints (snd (c w)) q = checkpoints w q.

(** The events of a dev evaluation inside [train]: the model calls
    [fw], the predictions file, the printed metrics and the line
    appended to the results log. *)
Definition dev_evaluation_events (a : args) (iteration : Z) (preds : predictions)
    (fw : list event) : list event :=
  fw ++ evaluation_report a "dev_conversion" iteration preds ++
  [AppendResults (output_dir a ++ "/results_epoch_dev.json")
     (fst (fst (scored "dev_conversion" preds)))
     (snd (fst (scored "dev_conversion" preds)))
     (snd (scored "dev_conversion" preds))].

(** Lines 203-219: what [run] does once the generators are seeded. *)
Definition load_train_evaluate (a : args) : M unit :=
  bind (draw (from_pretrained (model a)))
    (fun loaded =>
       let m := {| params := fst loaded; grad := no_gradients; training := snd loaded |} in
       bind (emit PrintParameterCount)
         (fun _ =>
            bind (if do_train a
                  then bind (train a m) (fun ls => ret (mdl ls))
                  else ret m)
              (fun m' => if do_eval a then final_evaluation a m' else ret tt))).

(** What lines 188-200 print and create for the chosen arguments. *)
Definition preparation_events (a : args) (w : world) : list event :=
  (match fs w (output_dir a) with
   | Directory (_ :: _) => if do_train a then [PrintWarning (output_dir a)] else []
   | _ => []
   end) ++
  (if path_exists (fs w (output_dir a)) then [] else [Makedirs (output_dir a)]) ++
  (if do_train a
   then [CopyScript "main_story.py" (output_dir a);
         CopyScript "data_utils.py" (output_dir a);
         CopyScript "models.py" (output_dir a);
         SaveArgs (output_dir a)]
   else []).

(** What lines 188-200 may print and create. *)
Definition preparation_event (e : event) : Prop :=
  match e with
  | PrintWarning _ => True
  | Makedirs _ => True
  | CopyScript _ _ => True
  | SaveArgs _ => True
  | _ => False
  end.

(** Lines 188-202 go through: the output path is a directory or can be
    created, and the seed is one that NumPy takes. *)
Definition can_prepare (a : args) (w : world) : bool :=
  numpy_seed_ok (seed a) &&
  match fs w (output_dir a) with
  | Directory _ => true
  | RegularFile => false
  | Absent => negb (existsb (fun q => is_regular_file (fs w q)) (ancestors (output_dir a)))
  end.

(** The state of the process after line 202: the output directory
    exists and the four generators are seeded. *)
Definition prepared (a : args) (w : world) : world :=
  {| fs := if path_exists (fs w (output_dir a)) then fs w
           else with_directory (fs w) (output_dir a);
     checkpoints := checkpoints w;
     rng := {| py_random := seed_random (seed a); np_random := seed_numpy (seed a);
               torch_cpu := seed_torch (seed a); torch_cuda := seed_cuda (seed a) |};
     grad_enabled := grad_enabled w;
     trace := trace w ++ preparation_events a w |}.

End Vocabulary.

(** * Properties *)

Unset Implicit Arguments.

Section Properties.

Context {C : Collaborators}.

(** ** The batch loss *)


Lemma total_loss_is_tensor (ls : losses) : is_tensor (total_loss ls) = some_present ls.
Proof.
  destruct ls as [[[a|] [b|]] [c|]]; reflexivity.
Qed.


Lemma scale_is_tensor (N : Z) (v : pyval) : is_tensor (scale N v) = is_tensor v.
Proof.
  unfold scale. destruct (1 <? N)%Z; destruct v; reflexivity.
Qed.

Lemma backward_arg_tensor (v : pyval) :
  backward_arg v = if is_tensor v then inr (value v) else inl AttributeError.
Proof. destruct v; reflexivity. Qed.

(** ** One batch of the training loop *)

Lemma modulo_ok (x y : Z) (w : world) :
  (1 <= y)%Z -> modulo x y w = (inr (x mod y)%Z, w).
Proof.
  intros H. unfold modulo. destruct (Z.eqb_spec y 0); [lia | reflexivity].
Qed.

Lemma batch_iteration_run (a : args) (ls : loop_state) (acc : Q) (b : batch) (w : world) :
  (1 <= gradient_accumulation_steps a)%Z ->
  some_present (fst (forward (params (mdl ls)) (training (mdl ls)) b (rng w))) = true ->
  let N := gradient_accumulation_steps a in
  let q := value (scale N (total_loss (fst (forward (params (mdl ls)) (training (mdl ls)) b (rng w))))) in
  let c := {| at_step := global_step ls; on_batch := b; scaled_loss := q |} in
  let stepping := ((global_step ls + 1) mod N =? 0)%Z in
  let g := {| contributions := contributions (grad (mdl ls)) ++ [c];
              clipped := Some (max_grad_norm a) |} in
  let stepped := optimizer_step (opt ls) (params (mdl ls)) g in
  batch_iteration a ls acc b w =
    (inr ({| mdl := if stepping
                    then {| params := snd stepped; grad := no_gradients;
                            training := training (mdl ls) |}
                    else set_grad (mdl ls) (accumulate (grad (mdl ls)) c);
             opt := if stepping then scheduler_step (fst stepped) else opt ls;
             global_step := (global_step ls + 1)%Z;
             best_verifiability := best_verifiability ls |},
          acc + q),
     set_trace (set_rng w (snd (forward (params (mdl ls)) (training (mdl ls)) b (rng w))))
       (trace w ++ events_of_batch a (training (mdl ls)) (grad_enabled w) q stepping)).
Proof.
  intros HN Hp N q c stepping g stepped.
  unfold batch_iteration, bind, get_grad_enabled, emit, draw. simpl.
  destruct (forward (params (mdl ls)) (training (mdl ls)) b (rng w)) as [hl r] eqn:Hf.
  simpl in *.
  rewrite backward_arg_tensor, scale_is_tensor, total_loss_is_tensor, Hp.
  simpl. rewrite modulo_ok by assumption.
  fold N. fold q. 
  unfold events_of_batch, stepping, optimizer_update, bind, emit, ret.
  destruct ((global_step ls + 1) mod N =? 0)%Z; simpl;
    rewrite <- ?app_assoc; reflexivity.
Qed.

Lemma batch_iteration_without_loss (a : args) (ls : loop_state) (acc : Q) (b : batch) (w : world) :
  some_present (fst (forward (params (mdl ls)) (training (mdl ls)) b (rng w))) = false ->
  fst (batch_iteration a ls acc b w) = inl AttributeError.
Proof.
  intros Hp.
  unfold batch_iteration, bind, get_grad_enabled, emit, draw. simpl.
  destruct (forward (params (mdl ls)) (training (mdl ls)) b (rng w)) as [hl r] eqn:Hf.
  simpl in *.
  rewrite backward_arg_tensor, scale_is_tensor, total_loss_is_tensor, Hp.
  reflexivity.
Qed.

(** A batch for which the model reports no head loss at all leaves
    [total_loss] the integer 0, and [total_loss.backward()] raises. *)
Lemma batch_iteration_all_absent (a : args) (ls : loop_state) (acc : Q) (b : batch) (w : world) :
  some_present (fst (forward (params (mdl ls)) (training (mdl ls)) b (rng w))) = false ->
  fst (batch_iteration a ls acc b w) = inl AttributeError.
Proof.
  intros Hp. apply batch_iteration_without_loss. exact Hp.
Qed.


(** ** Computations that only add events *)

Lemma frames_ret (g : bool) (P : event -> Prop) (A : Type) (x : A) : frames g P (ret x).
Proof.
  intros w Hg. simpl. repeat split; auto.
  exists []. rewrite app_nil_r. auto.
Qed.

Lemma frames_raise (g : bool) (P : event -> Prop) (A : Type) (e : exn) :
  frames g P (@raise C A e).
Proof.
  intros w Hg. simpl. repeat split; auto.
  exists []. rewrite app_nil_r. auto.
Qed.

Lemma frames_emit (g : bool) (P : event -> Prop) (e : event) : P e -> frames g P (emit e).
Proof.
  intros He w Hg. simpl. repeat split; auto.
  exists [e]. auto.
Qed.

Lemma frames_draw (g : bool) (P : event -> Prop) (A : Type)
    (f : rngs generator -> A * rngs generator) : frames g P (draw f).
Proof.
  intros w Hg. unfold draw. destruct (f (rng w)). simpl. repeat split; auto.
  exists []. rewrite app_nil_r. auto.
Qed.

Lemma frames_get_grad_enabled (g : bool) (P : event -> Prop) : frames g P get_grad_enabled.
Proof.
  intros w Hg. simpl. repeat split; auto.
  exists []. rewrite app_nil_r. auto.
Qed.

Lemma frames_bind (g : bool) (P : event -> Prop) (A B : Type) (c : M A) (k : A -> M B) :
  frames g P c -> (forall x, frames g P (k x)) -> frames g P (bind c k).
Proof.
  intros Hc Hk w Hg. unfold bind.
  destruct (Hc w Hg) as (Hfs & Hck & Hge & t & Ht & HP).
  destruct (c w) as [[e|x] w1]; simpl in *.
  - repeat split; auto. exists t. auto.
  - destruct (Hk x w1 Hge) as (Hfs' & Hck' & Hge' & t' & Ht' & HP').
    repeat split; try congruence.
    exists (t ++ t'). split.
    + rewrite Ht', Ht, app_assoc. reflexivity.
    + apply Forall_app. auto.
Qed.

Lemma frames_for_each (g : bool) (P : event -> Prop) (A B : Type) (f : A -> M B) (l : list A) :
  (forall x, frames g P (f x)) -> frames g P (for_each f l).
Proof.
  intros Hf. induction l as [|x rest IH]; simpl.
  - apply frames_ret.
  - apply frames_bind; [apply Hf|]. intros y.
    apply frames_bind; [apply IH|]. intros ys. apply frames_ret.
Qed.

Lemma frames_weaken (g : bool) (P P' : event -> Prop) (A : Type) (c : M A) :
  (forall e, P e -> P' e) -> frames g P c -> frames g P' c.
Proof.
  intros HPP Hc w Hg.
  destruct (Hc w Hg) as (Hfs & Hck & Hge & t & Ht & HP).
  repeat split; auto. exists t. split; auto.
  eapply Forall_impl; eauto.
Qed.

(** [with torch.no_grad()] runs its body without tracking and gives the
    previous mode back. *)
Lemma frames_no_grad (g : bool) (P : event -> Prop) (A : Type) (c : M A) :
  frames false P c -> frames g P (no_grad c).
Proof.
  intros Hc w Hg. unfold no_grad.
  destruct (Hc (set_grad_enabled w false) eq_refl) as (Hfs & Hck & Hge & t & Ht & HP).
  destruct (c (set_grad_enabled w false)) as [r w1]. simpl in *.
  repeat split; auto. exists t. auto.
Qed.

Lemma frames_read_grad (g : bool) (P : event -> Prop) (A : Type) (k : bool -> M A) :
  frames g P (k g) -> frames g P (bind get_grad_enabled k).
Proof.
  intros H w Hg. unfold bind, get_grad_enabled. rewrite Hg. apply H. assumption.
Qed.

Lemma frames_first_row_softmax (g : bool) (P : event -> Prop) (rows : list (list Q)) :
  frames g P (first_row_softmax rows).
Proof.
  unfold first_row_softmax. destruct (map softmax rows).
  - apply frames_raise.
  - apply frames_ret.
Qed.

Ltac frames_step :=
  first [ apply frames_read_grad
        | apply frames_bind; [| intros ? ]
        | apply frames_ret | apply frames_raise | apply frames_draw
        | apply frames_first_row_softmax
        | apply frames_emit; simpl; auto ].

Lemma frames_entity_prediction (m : module) (s : sample states) (i : nat) (g : bool) :
  frames g (eval_event (training m) g) (entity_prediction m s i).
Proof.
  unfold entity_prediction.
  apply frames_bind.
  { unfold question_of. destruct (nth_error _ _); frames_step. }
  intros question.
  destruct (entity_inputs question s) as [[[bA bB] tA] tB].
  repeat frames_step.
Qed.

Lemma frames_test_model_conversion (a : args) (m : module) (test_set : list (sample states))
    (name : string) (iteration : Z) (g : bool) :
  frames g (eval_event (training m) g) (test_model_conversion a m test_set name iteration).
Proof.
  unfold test_model_conversion.
  apply frames_bind.
  { apply frames_for_each. intros s. unfold sample_prediction.
    apply frames_for_each. intros i. apply frames_entity_prediction. }
  intros all_preds. cbv zeta.
  destruct (official_evaluate _ _) as [[accuracy consistency] verifiability].
  repeat frames_step.
Qed.

Lemma frames_evaluate_dev (a : args) (m : module) (dev_set : list (sample states))
    (iteration : Z) (g : bool) :
  frames g (log_event false false) (evaluate_dev a m dev_set iteration).
Proof.
  unfold evaluate_dev. cbv zeta.
  apply frames_bind.
  - apply frames_no_grad.
    apply frames_weaken with (P := eval_event false false).
    + intros e. destruct e; simpl; auto.
    + apply (frames_test_model_conversion a (set_training m false)).
  - intros [[v c] acc]. repeat frames_step.
Qed.

Lemma evaluate_dev_result (a : args) (m m' : module) (dev_set : list (sample states))
    (iteration : Z) (v : Q) (w w' : world) :
  evaluate_dev a m dev_set iteration w = (inr (m', v), w') ->
  m' = set_training m false /\
  exists t : list event, trace w' = trace w ++ t /\ Forall (log_event false false) t.
Proof.
  intros H.
  destruct (frames_evaluate_dev a m dev_set iteration (grad_enabled w) w eq_refl)
    as (_ & _ & _ & t & Ht & HP).
  rewrite H in Ht. simpl in Ht.
  split; [| exists t; auto].
  revert H. unfold evaluate_dev, bind. cbv zeta.
  destruct (no_grad _ w) as [[e|[[v0 c0] acc0]] w1]; [discriminate|].
  unfold emit, ret. intros H. inversion H. reflexivity.
Qed.

(** ** Counting the batches *)

Lemma count_app (f : event -> bool) (t t' : list event) :
  count f (t ++ t') = (count f t + count f t')%Z.
Proof.
  unfold count. rewrite filter_app, length_app. lia.
Qed.

Lemma count_log_event (f : event -> bool) (t : list event) :
  (forall e, f e = true -> ~ log_event false false e) ->
  Forall (log_event false false) t -> count f t = 0%Z.
Proof.
  intros Hf HP. unfold count.
  induction HP as [|e t He HP IH]; simpl; [reflexivity|].
  destruct (f e) eqn:Hfe; [exfalso; apply (Hf e Hfe He) | exact IH].
Qed.

Lemma count_backward_log (t : list event) :
  Forall (log_event false false) t -> count is_backward t = 0%Z.
Proof.
  apply count_log_event. intros e. destruct e; simpl; auto; discriminate.
Qed.

Lemma count_optimizer_step_log (t : list event) :
  Forall (log_event false false) t -> count is_optimizer_step t = 0%Z.
Proof.
  apply count_log_event. intros e. destruct e; simpl; auto; discriminate.
Qed.

Lemma mod_succ_step (N g : Z) :
  (1 <= N)%Z -> (0 <= g)%Z -> ((g + 1) mod N = 0)%Z ->
  ((g + 1) / N = g / N + 1)%Z.
Proof.
  intros HN Hg Hm.
  pose proof (Z.div_mod (g + 1) N ltac:(lia)) as H1.
  pose proof (Z.div_mod g N ltac:(lia)) as H2.
  pose proof (Z.mod_pos_bound g N ltac:(lia)) as H3.
  rewrite Hm in H1.
  assert (N * ((g + 1) / N - g / N) = g mod N + 1)%Z as H4 by lia.
  assert (0 < (g + 1) / N - g / N)%Z by nia.
  assert ((g + 1) / N - g / N < 2)%Z by nia.
  lia.
Qed.

Lemma mod_succ_stay (N g : Z) :
  (1 <= N)%Z -> (0 <= g)%Z -> ((g + 1) mod N <> 0)%Z ->
  ((g + 1) / N = g / N)%Z /\ ((g + 1) mod N = g mod N + 1)%Z.
Proof.
  intros HN Hg Hm.
  pose proof (Z.div_mod g N ltac:(lia)) as H2.
  pose proof (Z.mod_pos_bound g N ltac:(lia)) as H3.
  assert (g mod N + 1 < N)%Z as Hlt.
  { destruct (Z.eq_dec (g mod N + 1) N) as [E|E]; [|lia].
    exfalso. apply Hm.
    replace (g + 1)%Z with (0 + (g / N + 1) * N)%Z by lia.
    rewrite Z.mod_add by lia. apply Z.mod_0_l. lia. }
  assert (g + 1 = N * (g / N) + (g mod N + 1))%Z as E by lia.
  split.
  - symmetry. apply (Z.div_unique_pos (g + 1) N (g / N) (g mod N + 1)); lia.
  - symmetry. apply (Z.mod_unique_pos (g + 1) N (g / N) (g mod N + 1)); lia.
Qed.

Lemma window_step (N g : Z) : ((g + 1) mod N = 0)%Z -> window N (g + 1) = [].
Proof.
  intros H. unfold window. rewrite H. reflexivity.
Qed.

Lemma window_stay (N g : Z) :
  (1 <= N)%Z -> (0 <= g)%Z -> ((g + 1) mod N <> 0)%Z ->
  window N (g + 1) = window N g ++ [g].
Proof.
  intros HN Hg Hm.
  destruct (mod_succ_stay _ _ HN Hg Hm) as [_ Hmod].
  pose proof (Z.mod_pos_bound g N ltac:(lia)) as Hb.
  unfold window. rewrite Hmod.
  replace (Z.to_nat (g mod N + 1)) with (Z.to_nat (g mod N) + 1)%nat by lia.
  rewrite seq_app, map_app. simpl.
  f_equal.
  - apply map_ext. intros i. lia.
  - f_equal. lia.
Qed.

(** ** The batch counter and the accumulated gradients *)

Lemma advances_refl (N : Z) (ls : loop_state) (w : world) :
  pending_ok N ls -> advances N ls w ls w.
Proof.
  intros H. unfold advances. repeat split; try apply H; lia.
Qed.

Lemma advances_trans (N : Z) (ls ls1 ls2 : loop_state) (w w1 w2 : world) :
  advances N ls w ls1 w1 -> advances N ls1 w1 ls2 w2 -> advances N ls w ls2 w2.
Proof.
  intros (_ & Hb & Ho) (Hp & Hb' & Ho'). unfold advances.
  split; [exact Hp|]. split; lia.
Qed.

(** Steps that neither run a batch nor touch the gradients. *)
Lemma advances_quiet (N : Z) (ls ls' : loop_state) (w w' : world) (t : list event) :
  pending_ok N ls ->
  global_step ls' = global_step ls ->
  grad (mdl ls') = grad (mdl ls) ->
  trace w' = trace w ++ t ->
  count is_backward t = 0%Z ->
  count is_optimizer_step t = 0%Z ->
  advances N ls w ls' w'.
Proof.
  intros [Hg Hw] Hgs Hgr Ht Hb Ho. unfold advances, pending_ok.
  rewrite Hgs, Hgr, Ht, !count_app, Hb, Ho.
  repeat split; auto; lia.
Qed.

Lemma batch_iteration_succeeds_only_with_a_loss
    (a : args) (ls : loop_state) (acc : Q) (b : batch) (w w' : world)
    (r : loop_state * Q) :
  batch_iteration a ls acc b w = (inr r, w') ->
  some_present (fst (forward (params (mdl ls)) (training (mdl ls)) b (rng w))) = true.
Proof.
  intros H.
  destruct (some_present _) eqn:Hp; [reflexivity|].
  pose proof (batch_iteration_without_loss a ls acc b w Hp) as Herr.
  rewrite H in Herr. discriminate.
Qed.

Lemma batch_iteration_advances (a : args) (ls ls' : loop_state) (acc acc' : Q) (b : batch)
    (w w' : world) :
  (1 <= gradient_accumulation_steps a)%Z ->
  pending_ok (gradient_accumulation_steps a) ls ->
  batch_iteration a ls acc b w = (inr (ls', acc'), w') ->
  advances (gradient_accumulation_steps a) ls w ls' w' /\
  training (mdl ls') = training (mdl ls) /\
  best_verifiability ls' = best_verifiability ls.
Proof.
  intros HN [Hg Hw] H.
  pose proof (batch_iteration_succeeds_only_with_a_loss _ _ _ _ _ _ _ H) as Hp.
  rewrite (batch_iteration_run a ls acc b w HN Hp) in H. cbv zeta in H.
  inversion H as [[Hls Hacc Hw']]. clear H Hacc.
  unfold advances, pending_ok. simpl.
  rewrite !count_app. unfold events_of_batch.
  destruct ((global_step ls + 1) mod gradient_accumulation_steps a =? 0)%Z eqn:Hm.
  - apply Z.eqb_eq in Hm. simpl.
    rewrite (window_step _ _ Hm), (mod_succ_step _ _ HN Hg Hm).
    unfold count; simpl. repeat split; lia.
  - apply Z.eqb_neq in Hm. simpl.
    rewrite (window_stay _ _ HN Hg Hm), map_app, Hw.
    destruct (mod_succ_stay _ _ HN Hg Hm) as [Hd _]. rewrite Hd.
    unfold count; simpl. repeat split; lia.
Qed.

Lemma batch_loop_advance (a : args) (bs : list batch) :
  (1 <= gradient_accumulation_steps a)%Z ->
  forall (ls ls' : loop_state) (acc acc' : Q) (w w' : world),
    pending_ok (gradient_accumulation_steps a) ls ->
    batch_loop a ls acc bs w = (inr (ls', acc'), w') ->
    advances (gradient_accumulation_steps a) ls w ls' w' /\
    global_step ls' = (global_step ls + Z.of_nat (List.length bs))%Z /\
    training (mdl ls') = training (mdl ls) /\
    best_verifiability ls' = best_verifiability ls.
Proof.
  intros HN. induction bs as [|b rest IH]; intros ls ls' acc acc' w w' Hp H.
  - simpl in H. inversion H. subst.
    split; [apply advances_refl; assumption|]. repeat split. simpl. lia.
  - simpl in H. unfold bind in H.
    destruct (batch_iteration a ls acc b w) as [[e|[ls1 acc1]] w1] eqn:Hb; [discriminate|].
    simpl in H.
    destruct (batch_iteration_advances _ _ _ _ _ _ _ _ HN Hp Hb) as (Hadv & Htr & Hbest).
    pose proof Hb as Hb'.
    pose proof (batch_iteration_succeeds_only_with_a_loss _ _ _ _ _ _ _ Hb) as Hsome.
    rewrite (batch_iteration_run a ls acc b w HN Hsome) in Hb'. cbv zeta in Hb'.
    assert (global_step ls1 = (global_step ls + 1)%Z) as Hgs.
    { inversion Hb'. reflexivity. }
    destruct (IH ls1 ls' acc1 acc' w1 w' (proj1 Hadv) H) as (Hadv' & Hgs' & Htr' & Hbest').
    split; [eapply advances_trans; eauto|].
    repeat split; try congruence.
    rewrite Hgs', Hgs. simpl List.length. lia.
Qed.

(** ** The shape of a successful epoch *)

Lemma evaluate_dev_logs (a : args) (m m' : module) (dev_set : list (sample states))
    (iteration : Z) (v : Q) (w w' : world) :
  evaluate_dev a m dev_set iteration w = (inr (m', v), w') ->
  exists (t : list event) (accuracy consistency : Q),
    trace w' = t ++ [AppendResults (output_dir a ++ "/results_epoch_dev.json")
                       accuracy consistency v].
Proof.
  unfold evaluate_dev, bind. cbv zeta.
  destruct (no_grad _ w) as [[e|[[v0 c0] acc0]] w1]; [discriminate|].
  unfold emit, ret. intros H. inversion H. subst.
  exists (trace w1), acc0, c0. reflexivity.
Qed.

Lemma train_epoch_shape (a : args) (dev_set : list (sample states)) (ls ls' : loop_state)
    (iteration : Z) (w w' : world) :
  train_epoch a dev_set ls iteration w = (inr ls', w') ->
  exists (ls0 lsB : loop_state) (w0 wB wE : world) (t0 : list event)
         (accB v : Q) (mE : module),
    global_step ls0 = global_step ls /\
    grad (mdl ls0) = grad (mdl ls) /\
    best_verifiability ls0 = best_verifiability ls /\
    trace w0 = trace w ++ t0 /\ Forall (log_event false false) t0 /\
    batch_loop a (set_mdl ls0 (set_training (mdl ls0) true)) 0
      (fst (data_loader (max_train_data a) (per_gpu_train_batch_size a) (rng w0)))
      (set_rng w0 (snd (data_loader (max_train_data a) (per_gpu_train_batch_size a) (rng w0))))
      = (inr (lsB, accB), wB) /\
    evaluate_dev a (mdl lsB) dev_set (iteration + 1)
      (set_trace wB (trace wB ++ [PrintLoss accB])) = (inr (mE, v), wE) /\
    save_if_best a (set_mdl lsB mE) v wE = (inr ls', w').
Proof.
  unfold train_epoch. unfold bind at 1.
  intros H.
  destruct (baseline_evaluation a dev_set ls iteration w) as [[e|ls0] w0] eqn:H0;
    [discriminate|].
  assert (global_step ls0 = global_step ls /\ grad (mdl ls0) = grad (mdl ls) /\
          best_verifiability ls0 = best_verifiability ls /\
          exists t0, trace w0 = trace w ++ t0 /\ Forall (log_event false false) t0)
    as (Hgs & Hgr & Hbest & t0 & Ht0 & HP0).
  { unfold baseline_evaluation in H0. destruct (iteration =? 0)%Z.
    - unfold bind in H0.
      destruct (evaluate_dev a (mdl ls) dev_set 0 w) as [[e|[m0 v0]] w00] eqn:He;
        [discriminate|].
      destruct (evaluate_dev_result _ _ _ _ _ _ _ _ He) as (Hm & t & Ht & HP).
      unfold ret in H0. inversion H0. subst. simpl.
      repeat split. exists t. auto.
    - unfold ret in H0. inversion H0. subst.
      repeat split. exists []. rewrite app_nil_r. auto. }
  cbv zeta in H. unfold bind at 1 in H. unfold draw at 1 in H.
  destruct (data_loader (max_train_data a) (per_gpu_train_batch_size a) (rng w0))
    as [bs r] eqn:Hd.
  unfold bind at 1 in H.
  destruct (batch_loop a _ 0 bs (set_rng w0 r)) as [[e|[lsB accB]] wB] eqn:Hb;
    [discriminate|].
  unfold bind at 1 in H. unfold emit at 1 in H. simpl fst in H. simpl snd in H.
  unfold bind at 1 in H.
  destruct (evaluate_dev a (mdl lsB) dev_set (iteration + 1) _) as [[e|[mE v]] wE] eqn:He;
    [discriminate|].
  simpl fst in H. simpl snd in H.
  exists ls0, lsB, w0, wB, wE, t0, accB, v, mE.
  rewrite Hd. simpl. repeat split; auto.
Qed.

(** ** The checkpoint rule *)

Lemma save_if_best_spec (a : args) (ls : loop_state) (v : Q) (w : world) :
  exists (ls' : loop_state) (w' : world),
    save_if_best a ls v w = (inr ls', w') /\
    mdl ls' = mdl ls /\ global_step ls' = global_step ls /\
    fs w' = fs w /\ rng w' = rng w /\ grad_enabled w' = grad_enabled w /\
    (best_verifiability ls <= v ->
       checkpoints w' (output_dir a ++ "/best_model")%string = Some (params (mdl ls)) /\
       best_verifiability ls' = v /\
       trace w' = trace w ++ [SaveCheckpoint (output_dir a ++ "/best_model")]) /\
    (~ best_verifiability ls <= v ->
       checkpoints w' = checkpoints w /\
       best_verifiability ls' = best_verifiability ls /\
       trace w' = trace w) /\
    best_verifiability ls <= best_verifiability ls'.
Proof.
  unfold save_if_best.
  destruct (Qle_bool (best_verifiability ls) v) eqn:Hle.
  - apply Qle_bool_iff in Hle.
    eexists _, _. split; [reflexivity|]. simpl.
    do 5 (split; [reflexivity|]).
    split; [| split; [intros Hn; contradiction | exact Hle]].
    intros _. rewrite String.eqb_refl. repeat split.
  - assert (~ best_verifiability ls <= v) as Hn.
    { intros Hq. apply Qle_bool_iff in Hq. congruence. }
    eexists _, _. split; [reflexivity|]. simpl.
    do 5 (split; [reflexivity|]).
    split; [intros Hq; contradiction|].
    split; [intros _; repeat split | apply Qle_refl].
Qed.

Lemma batch_iteration_keeps_best (a : args) (ls ls' : loop_state) (acc acc' : Q) (b : batch)
    (w w' : world) :
  batch_iteration a ls acc b w = (inr (ls', acc'), w') ->
  best_verifiability ls' = best_verifiability ls.
Proof.
  unfold batch_iteration, bind, get_grad_enabled, emit, draw. simpl.
  destruct (forward _ _ _ _) as [hl r].
  destruct (backward_arg _) as [e|q]; [discriminate|].
  simpl. unfold modulo.
  destruct (gradient_accumulation_steps a =? 0)%Z; [discriminate|].
  simpl.
  destruct (_ =? 0)%Z; simpl; intros H; inversion H; reflexivity.
Qed.

Lemma batch_loop_keep_best (a : args) (bs : list batch) :
  forall (ls ls' : loop_state) (acc acc' : Q) (w w' : world),
    batch_loop a ls acc bs w = (inr (ls', acc'), w') ->
    best_verifiability ls' = best_verifiability ls.
Proof.
  induction bs as [|b rest IH]; intros ls ls' acc acc' w w' H.
  - simpl in H. inversion H. reflexivity.
  - simpl in H. unfold bind in H.
    destruct (batch_iteration a ls acc b w) as [[e|[ls1 acc1]] w1] eqn:Hb; [discriminate|].
    simpl in H. rewrite (IH _ _ _ _ _ _ H).
    eapply batch_iteration_keeps_best; eauto.
Qed.

Lemma train_epoch_advances (a : args) (dev_set : list (sample states)) (ls ls' : loop_state)
    (iteration : Z) (w w' : world) :
  (1 <= gradient_accumulation_steps a)%Z ->
  pending_ok (gradient_accumulation_steps a) ls ->
  train_epoch a dev_set ls iteration w = (inr ls', w') ->
  advances (gradient_accumulation_steps a) ls w ls' w'.
Proof.
  intros HN Hp H.
  apply train_epoch_shape in H.
  destruct H as (ls0 & lsB & w0 & wB & wE & t0 & accB & v & mE &
                 Hgs & Hgr & _ & Ht0 & HP0 & Hb & He & Hs).
  assert (advances (gradient_accumulation_steps a) ls w
            (set_mdl ls0 (set_training (mdl ls0) true))
            (set_rng w0 (snd (data_loader (max_train_data a)
                                (per_gpu_train_batch_size a) (rng w0))))) as H1.
  { apply advances_quiet with (t := t0); auto.
    - apply count_backward_log; assumption.
    - apply count_optimizer_step_log; assumption. }
  apply batch_loop_advance in Hb; [| assumption | apply H1].
  destruct Hb as (H2 & _).
  apply advances_trans with (1 := H1).
  apply advances_trans with (1 := H2).
  destruct (evaluate_dev_result _ _ _ _ _ _ _ _ He) as (HmE & tE & HtE & HPE).
  destruct (save_if_best_spec a (set_mdl lsB mE) v wE)
    as (ls'' & w'' & Hs' & Hmdl & Hgs' & _ & _ & _ & Hyes & Hno & _).
  rewrite Hs in Hs'. inversion Hs'. subst ls'' w''. clear Hs'.
  simpl in HtE, Hmdl, Hgs'.
  destruct (Qle_bool (best_verifiability (set_mdl lsB mE)) v) eqn:Hle.
  - apply Qle_bool_iff in Hle. destruct (Hyes Hle) as (_ & _ & Ht).
    apply advances_quiet
      with (t := [PrintLoss accB] ++ tE ++ [SaveCheckpoint (output_dir a ++ "/best_model")]).
    + apply H2.
    + assumption.
    + rewrite Hmdl, HmE. reflexivity.
    + rewrite Ht, HtE, <- !app_assoc. reflexivity.
    + rewrite !count_app, (count_backward_log _ HPE). reflexivity.
    + rewrite !count_app, (count_optimizer_step_log _ HPE). reflexivity.
  - assert (~ best_verifiability (set_mdl lsB mE) <= v) as Hn.
    { intros Hq. apply Qle_bool_iff in Hq. congruence. }
    destruct (Hno Hn) as (_ & _ & Ht).
    apply advances_quiet with (t := [PrintLoss accB] ++ tE).
    + apply H2.
    + assumption.
    + rewrite Hmdl, HmE. reflexivity.
    + rewrite Ht, HtE, <- !app_assoc. reflexivity.
    + rewrite !count_app, (count_backward_log _ HPE). reflexivity.
    + rewrite !count_app, (count_optimizer_step_log _ HPE). reflexivity.
Qed.

Lemma train_epochs_advance (a : args) (dev_set : list (sample states)) (iterations : list Z) :
  (1 <= gradient_accumulation_steps a)%Z ->
  forall (ls ls' : loop_state) (w w' : world),
    pending_ok (gradient_accumulation_steps a) ls ->
    train_epochs a dev_set ls iterations w = (inr ls', w') ->
    advances (gradient_accumulation_steps a) ls w ls' w'.
Proof.
  intros HN. induction iterations as [|i rest IH]; intros ls ls' w w' Hp H.
  - simpl in H. inversion H. subst. apply advances_refl. assumption.
  - simpl in H. unfold bind in H.
    destruct (train_epoch a dev_set ls i w) as [[e|ls1] w1] eqn:He; [discriminate|].
    pose proof (train_epoch_advances _ _ _ _ _ _ _ HN Hp He) as H1.
    apply advances_trans with (1 := H1).
    apply IH; [apply H1 | assumption].
Qed.

(** C10: the batch counter is carried from epoch to epoch.  Over one
    epoch, and over any run of epochs, it grows by the number of
    backward calls made; the optimizer is stepped once for every
    multiple of the window [N] that the counter passes, counted from the
    start of training and not from the start of the epoch; and when the
    epoch (its dev evaluation and checkpoint decision included) is over,
    the gradients still hold the backward calls of the batches since the
    last multiple of [N]: they are neither applied nor cleared, and the
    next epoch starts from them. *)
Theorem accumulation_state_spans_epochs (a : args) (dev_set : list (sample states)) :
  (1 <= gradient_accumulation_steps a)%Z ->
  (forall (ls ls' : loop_state) (iteration : Z) (w w' : world),
     pending_ok (gradient_accumulation_steps a) ls ->
     train_epoch a dev_set ls iteration w = (inr ls', w') ->
     (0 <= global_step ls')%Z /\
     map (@at_step batch) (contributions (grad (mdl ls'))) =
       window (gradient_accumulation_steps a) (global_step ls') /\
     (global_step ls' - global_step ls =
        count is_backward (trace w') - count is_backward (trace w))%Z /\
     (count is_optimizer_step (trace w') - count is_optimizer_step (trace w) =
        global_step ls' / gradient_accumulation_steps a
        - global_step ls / gradient_accumulation_steps a)%Z) /\
  (forall (iterations : list Z) (m : module) (t_total : Z) (ls' : loop_state) (w w' : world),
     grad m = no_gradients ->
     train_epochs a dev_set (initial_loop_state a m t_total) iterations w = (inr ls', w') ->
     map (@at_step batch) (contributions (grad (mdl ls'))) =
       window (gradient_accumulation_steps a) (global_step ls') /\
     global_step ls' = (count is_backward (trace w') - count is_backward (trace w))%Z /\
     (count is_optimizer_step (trace w') - count is_optimizer_step (trace w) =
        global_step ls' / gradient_accumulation_steps a)%Z).
Proof.
  intros HN. split.
  - intros ls ls' iteration w w' Hp H.
    destruct (train_epoch_advances _ _ _ _ _ _ _ HN Hp H) as ((Hg & Hw) & Hb & Ho).
    auto.
  - intros iterations m t_total ls' w w' Hm H.
    assert (pending_ok (gradient_accumulation_steps a) (initial_loop_state a m t_total)) as Hp.
    { unfold pending_ok. simpl. rewrite Hm. split; [lia|].
      unfold window. rewrite Z.mod_0_l by lia. reflexivity. }
    destruct (train_epochs_advance _ _ _ HN _ _ _ _ Hp H) as ((Hg & Hw) & Hb & Ho).
    simpl in Hb, Ho. rewrite Z.div_0_l in Ho by lia.
    repeat split; auto; lia.
Qed.

(** C1: at the end of every epoch the module that has just been
    evaluated on the dev set is saved to [best_model], and the best
    verifiability is set to the epoch's value, exactly when that value
    is at least the best so far; otherwise neither the file nor the best
    value changes.  So the best value never decreases from epoch to
    epoch, and on a tie the file holds the parameters of the later
    epoch. *)
Theorem checkpoint_iff_not_worse (a : args) (dev_set : list (sample states)) :
  (forall (ls : loop_state) (v : Q) (w : world),
     exists (ls' : loop_state) (w' : world),
       save_if_best a ls v w = (inr ls', w') /\
       (best_verifiability ls <= v ->
          checkpoints w' (output_dir a ++ "/best_model")%string = Some (params (mdl ls)) /\
          best_verifiability ls' = v /\
          trace w' = trace w ++ [SaveCheckpoint (output_dir a ++ "/best_model")]) /\
       (~ best_verifiability ls <= v ->
          checkpoints w' = checkpoints w /\
          best_verifiability ls' = best_verifiability ls /\
          trace w' = trace w) /\
       best_verifiability ls <= best_verifiability ls') /\
  (forall (ls ls' : loop_state) (iteration : Z) (w w' : world),
     train_epoch a dev_set ls iteration w = (inr ls', w') ->
     exists (lsB : loop_state) (wB wE : world) (mE : module) (v : Q),
       evaluate_dev a (mdl lsB) dev_set (iteration + 1) wB = (inr (mE, v), wE) /\
       params mE = params (mdl lsB) /\
       best_verifiability lsB = best_verifiability ls /\
       save_if_best a (set_mdl lsB mE) v wE = (inr ls', w') /\
       best_verifiability ls <= best_verifiability ls') /\
  (forall (iterations : list Z) (ls ls' : loop_state) (w w' : world),
     train_epochs a dev_set ls iterations w = (inr ls', w') ->
     best_verifiability ls <= best_verifiability ls').
Proof.
  assert (forall (ls ls' : loop_state) (iteration : Z) (w w' : world),
     train_epoch a dev_set ls iteration w = (inr ls', w') ->
     exists (lsB : loop_state) (wB wE : world) (mE : module) (v : Q),
       evaluate_dev a (mdl lsB) dev_set (iteration + 1) wB = (inr (mE, v), wE) /\
       params mE = params (mdl lsB) /\
       best_verifiability lsB = best_verifiability ls /\
       save_if_best a (set_mdl lsB mE) v wE = (inr ls', w') /\
       best_verifiability ls <= best_verifiability ls') as Hepoch.
  { intros ls ls' iteration w w' H.
    apply train_epoch_shape in H.
    destruct H as (ls0 & lsB & w0 & wB & wE & t0 & accB & v & mE &
                   _ & _ & Hbest0 & _ & _ & Hb & He & Hs).
    apply batch_loop_keep_best in Hb. simpl in Hb.
    destruct (evaluate_dev_result _ _ _ _ _ _ _ _ He) as (HmE & _).
    exists lsB, (set_trace wB (trace wB ++ [PrintLoss accB])), wE, mE, v.
    split; [exact He|].
    split; [rewrite HmE; reflexivity|].
    split; [congruence|].
    split; [exact Hs|].
    destruct (save_if_best_spec a (set_mdl lsB mE) v wE)
      as (ls'' & w'' & Hs' & _ & _ & _ & _ & _ & _ & _ & Hle).
    rewrite Hs in Hs'. inversion Hs'. subst ls'' w''.
    simpl in Hle. rewrite Hb, Hbest0 in Hle. exact Hle. }
  split; [| split; [exact Hepoch|]].
  - intros ls v w.
    destruct (save_if_best_spec a ls v w)
      as (ls' & w' & Hs & _ & _ & _ & _ & _ & Hyes & Hno & Hle).
    exists ls', w'. auto.
  - induction iterations as [|i rest IH]; intros ls ls' w w' H.
    + simpl in H. inversion H. apply Qle_refl.
    + simpl in H. unfold bind in H.
      destruct (train_epoch a dev_set ls i w) as [[e|ls1] w1] eqn:He; [discriminate|].
      destruct (Hepoch _ _ _ _ _ He) as (_ & _ & _ & _ & _ & _ & _ & _ & _ & Hle).
      eapply Qle_trans; [exact Hle|]. eapply IH; eauto.
Qed.

(** ** Mode and gradient tracking of the evaluations *)

Lemma forward_flags_app (t t' : list event) :
  forward_flags (t ++ t') = forward_flags t ++ forward_flags t'.
Proof. unfold forward_flags. apply flat_map_app. Qed.

Lemma forward_flags_log (mode tracking : bool) (t : list event) :
  Forall (log_event mode tracking) t ->
  Forall (fun f => f = (mode, tracking)) (forward_flags t).
Proof.
  intros H. induction H as [|e t He Ht IH]; simpl; [constructor|].
  destruct e; simpl in *; try assumption; try contradiction.
  destruct He; subst. constructor; [reflexivity | assumption].
Qed.

(** Every model call of a dev evaluation inside [train] is made in
    evaluation mode and without gradient tracking. *)
Lemma dev_evaluation_flags (a : args) (m : module) (dev_set : list (sample states))
    (iteration : Z) (w : world) :
  exists t : list event,
    trace (snd (evaluate_dev a m dev_set iteration w)) = trace w ++ t /\
    Forall (fun f => f = (false, false)) (forward_flags t).
Proof.
  destruct (frames_evaluate_dev a m dev_set iteration (grad_enabled w) w eq_refl)
    as (_ & _ & _ & t & Ht & HP).
  exists t. split; [exact Ht|]. apply forward_flags_log. exact HP.
Qed.

(** The final evaluation sets neither: its model calls are made in the
    mode the module is in and with the tracking the process is in. *)
Lemma final_evaluation_flags (a : args) (m : module) (w : world) :
  exists t : list event,
    trace (snd (final_evaluation a m w)) = trace w ++ t /\
    Forall (fun f => f = (training m, grad_enabled w)) (forward_flags t).
Proof.
  unfold final_evaluation. cbv zeta. unfold bind at 1.
  destruct (checkpoints w (output_dir a ++ "/best_model")%string) as [p|].
  - set (w1 := set_trace w (trace w ++ [LoadCheckpoint (output_dir a ++ "/best_model")])).
    assert (frames (grad_enabled w) (log_event (training m) (grad_enabled w))
              (bind (test_model_conversion a (set_params m p)
                       (read_json_data "../data/Propara/test_conversion.json")
                       "test_conversion" (-1))
                 (fun r => let '(verifiability, consistency, accuracy) := r in
                           emit (AppendResults (output_dir a ++ "/final_test_results.json")
                                   accuracy consistency verifiability)))) as Hf.
    { apply frames_bind.
      - apply frames_weaken with (P := eval_event (training m) (grad_enabled w)).
        + intros e. destruct e; simpl; auto.
        + apply (frames_test_model_conversion a (set_params m p)).
      - intros [[v c] acc]. apply frames_emit. exact I. }
    destruct (Hf w1 eq_refl) as (_ & _ & _ & t & Ht & HP).
    exists ([LoadCheckpoint (output_dir a ++ "/best_model")] ++ t).
    split.
    + rewrite Ht. unfold w1. simpl. rewrite <- app_assoc. reflexivity.
    + rewrite forward_flags_app. simpl. apply forward_flags_log. exact HP.
  - exists []. simpl. rewrite app_nil_r. split; [reflexivity | constructor].
Qed.

(** ** Seeding *)

Lemma ignores_generators_ret (A : Type) (x : A) : ignores_generators (ret x).
Proof. intros w r. reflexivity. Qed.

Lemma ignores_generators_raise (A : Type) (e : exn) : ignores_generators (@raise C A e).
Proof. intros w r. reflexivity. Qed.

Lemma ignores_generators_emit (e : event) : ignores_generators (emit e).
Proof. intros w r. reflexivity. Qed.

Lemma ignores_generators_bind (A B : Type) (c : M A) (k : A -> M B) :
  ignores_generators c -> (forall x, ignores_generators (k x)) ->
  ignores_generators (bind c k).
Proof.
  intros Hc Hk w r. unfold bind. rewrite (Hc w r).
  destruct (c w) as [[e|x] w1]; [reflexivity|]. apply Hk.
Qed.

Lemma ignores_generators_exists (p : string) : ignores_generators (os_path_exists p).
Proof. intros w r. reflexivity. Qed.

Lemma ignores_generators_listdir (p : string) : ignores_generators (os_listdir p).
Proof. intros w r. unfold os_listdir. simpl. destruct (fs w p); reflexivity. Qed.

Lemma ignores_generators_makedirs (p : string) : ignores_generators (os_makedirs p).
Proof.
  intros w r. unfold os_makedirs. simpl.
  destruct (existsb _ _); [reflexivity|].
  destruct (path_exists _); reflexivity.
Qed.

Lemma reseeded_bind (A B : Type) (c : M A) (k : A -> M B) :
  ignores_generators c -> (forall x, reseeded (k x)) -> reseeded (bind c k).
Proof.
  intros Hc Hk w r1 r2. unfold bind. rewrite (Hc w r1), (Hc w r2).
  destruct (c w) as [[e|x] w1]; simpl.
  - repeat split.
  - apply Hk.
Qed.

(** [set_seed] overwrites the four generators once [n_gpu] is positive. *)
Lemma reseeded_set_seed (a : args) (A : Type) (k : unit -> M A) :
  (0 < n_gpu a)%Z -> reseeded (bind (set_seed a) k).
Proof.
  intros Hn w r1 r2. unfold bind, set_seed.
  destruct (numpy_seed_ok (seed a)); [|simpl; repeat split].
  destruct (Z.ltb_spec 0 (n_gpu a)) as [_|H]; [|lia].
  simpl. repeat split.
Qed.

Lemma ignores_generators_choose_output_dir (a : args) :
  ignores_generators (choose_output_dir a).
Proof.
  unfold choose_output_dir.
  apply ignores_generators_bind; [apply ignores_generators_exists|].
  intros existing. apply ignores_generators_ret.
Qed.

Lemma ignores_generators_warn (a : args) : ignores_generators (warn_if_not_empty a).
Proof.
  unfold warn_if_not_empty.
  apply ignores_generators_bind; [apply ignores_generators_exists|].
  intros [|]; [|apply ignores_generators_ret].
  apply ignores_generators_bind; [apply ignores_generators_listdir|].
  intros [|e es]; [apply ignores_generators_ret|].
  destruct (do_train a); [apply ignores_generators_emit | apply ignores_generators_ret].
Qed.

Lemma reseeded_run (a : args) : reseeded (run a).
Proof.
  unfold run. cbv zeta.
  apply reseeded_bind; [apply ignores_generators_exists|].
  intros existing.
  apply reseeded_bind.
  { destruct existing; [apply ignores_generators_ret | apply ignores_generators_makedirs]. }
  intros _.
  apply reseeded_bind.
  { destruct (do_train (set_device a)); [|apply ignores_generators_ret].
    repeat (apply ignores_generators_bind; [apply ignores_generators_emit | intros _]).
    apply ignores_generators_emit. }
  intros _.
  apply reseeded_set_seed. simpl. lia.
Qed.

Lemma reseeded_main (parsed : args) : reseeded (main parsed).
Proof.
  unfold main.
  apply reseeded_bind; [apply ignores_generators_choose_output_dir|].
  intros a.
  apply reseeded_bind; [apply ignores_generators_warn|].
  intros _. apply reseeded_run.
Qed.

(** C7: a run is a function of its configuration and of the files it
    reads; the state in which the random generators happen to be when
    the process starts has no influence, because [set_seed] overwrites
    all of them before the parameters are initialised, the batches are
    shuffled or dropout is drawn.  In particular the per-epoch losses of
    two runs with the same configuration and seed are the same. *)
Theorem same_seed_same_epoch_losses (parsed : args) (w : world) (r1 r2 : rngs generator) :
  epoch_losses (trace (snd (main parsed (set_rng w r1)))) =
  epoch_losses (trace (snd (main parsed (set_rng w r2)))) /\
  fst (main parsed (set_rng w r1)) = fst (main parsed (set_rng w r2)) /\
  trace (snd (main parsed (set_rng w r1))) = trace (snd (main parsed (set_rng w r2))) /\
  checkpoints (snd (main parsed (set_rng w r1))) =
  checkpoints (snd (main parsed (set_rng w r2))).
Proof.
  destruct (reseeded_main parsed w r1 r2) as (Hr & _ & Hc & _ & Ht).
  rewrite Ht. auto.
Qed.

(** ** What has been printed is never read *)

Lemma with_prefix_emit (p : list event) (w : world) (e : event) :
  set_trace (with_prefix p w) (trace (with_prefix p w) ++ [e]) =
  with_prefix p (set_trace w (trace w ++ [e])).
Proof.
  unfold with_prefix, set_trace. simpl. rewrite app_assoc. reflexivity.
Qed.

Lemma ignores_trace_ret (A : Type) (x : A) : ignores_trace (ret x).
Proof. intros w p. reflexivity. Qed.

Lemma ignores_trace_raise (A : Type) (e : exn) : ignores_trace (@raise C A e).
Proof. intros w p. reflexivity. Qed.

Lemma ignores_trace_emit (e : event) : ignores_trace (emit e).
Proof.
  intros w p. unfold emit. simpl. f_equal.
  unfold with_prefix, set_trace. simpl. rewrite app_assoc. reflexivity.
Qed.

Lemma ignores_trace_draw (A : Type) (f : rngs generator -> A * rngs generator) :
  ignores_trace (draw f).
Proof.
  intros w p. unfold draw. simpl. destruct (f (rng w)). reflexivity.
Qed.

Lemma ignores_trace_get_grad_enabled : ignores_trace get_grad_enabled.
Proof. intros w p. reflexivity. Qed.

Lemma ignores_trace_bind (A B : Type) (c : M A) (k : A -> M B) :
  ignores_trace c -> (forall x, ignores_trace (k x)) -> ignores_trace (bind c k).
Proof.
  intros Hc Hk w p. unfold bind. rewrite (Hc w p).
  destruct (c w) as [[e|x] w1]; [reflexivity|]. apply Hk.
Qed.

Lemma ignores_trace_no_grad (A : Type) (c : M A) : ignores_trace c -> ignores_trace (no_grad c).
Proof.
  intros Hc w p. unfold no_grad.
  change (set_grad_enabled (with_prefix p w) false)
    with (with_prefix p (set_grad_enabled w false)).
  rewrite (Hc (set_grad_enabled w false) p).
  destruct (c (set_grad_enabled w false)) as [r w1]. reflexivity.
Qed.

Lemma ignores_trace_for_each (A B : Type) (f : A -> M B) (l : list A) :
  (forall x, ignores_trace (f x)) -> ignores_trace (for_each f l).
Proof.
  intros Hf. induction l as [|x rest IH]; simpl.
  - apply ignores_trace_ret.
  - apply ignores_trace_bind; [apply Hf|]. intros y.
    apply ignores_trace_bind; [apply IH|]. intros ys. apply ignores_trace_ret.
Qed.

Lemma ignores_trace_torch_save (path : string) (p : state_dict) :
  ignores_trace (torch_save path p).
Proof.
  intros w pre. unfold torch_save. simpl. f_equal.
  unfold with_prefix, set_trace, set_checkpoints. simpl. rewrite app_assoc. reflexivity.
Qed.

Lemma ignores_trace_exists (p : string) : ignores_trace (os_path_exists p).
Proof. intros w pre. reflexivity. Qed.

Lemma ignores_trace_makedirs (p : string) : ignores_trace (os_makedirs p).
Proof.
  intros w pre. unfold os_makedirs. simpl.
  destruct (existsb _ _); [reflexivity|].
  destruct (path_exists _); [reflexivity|].
  simpl. f_equal.
  unfold with_prefix, set_trace, set_fs. simpl. rewrite app_assoc. reflexivity.
Qed.

Lemma ignores_trace_set_seed (a : args) : ignores_trace (set_seed a).
Proof. intros w pre. unfold set_seed. destruct (numpy_seed_ok (seed a)); reflexivity. Qed.

Lemma ignores_trace_modulo (x y : Z) : ignores_trace (modulo x y).
Proof.
  unfold modulo. destruct (y =? 0)%Z; [apply ignores_trace_raise | apply ignores_trace_ret].
Qed.

Lemma ignores_trace_floor_div (x y : Z) : ignores_trace (floor_div x y).
Proof.
  unfold floor_div. destruct (y =? 0)%Z; [apply ignores_trace_raise | apply ignores_trace_ret].
Qed.

Ltac ignores_trace_step :=
  lazymatch goal with
  | |- ignores_trace (bind _ _) => apply ignores_trace_bind; [| intros ?]
  | |- ignores_trace (ret _) => apply ignores_trace_ret
  | |- ignores_trace (raise _) => apply ignores_trace_raise
  | |- ignores_trace (emit _) => apply ignores_trace_emit
  | |- ignores_trace (draw _) => apply ignores_trace_draw
  | |- ignores_trace get_grad_enabled => apply ignores_trace_get_grad_enabled
  | |- ignores_trace (no_grad _) => apply ignores_trace_no_grad
  | |- ignores_trace (for_each _ _) => apply ignores_trace_for_each; intros ?
  | |- ignores_trace (torch_save _ _) => apply ignores_trace_torch_save
  | |- ignores_trace (os_path_exists _) => apply ignores_trace_exists
  | |- ignores_trace (os_makedirs _) => apply ignores_trace_makedirs
  | |- ignores_trace (set_seed _) => apply ignores_trace_set_seed
  | |- ignores_trace (modulo _ _) => apply ignores_trace_modulo
  | |- ignores_trace (floor_div _ _) => apply ignores_trace_floor_div
  | |- ignores_trace (if ?b then _ else _) => destruct b
  | |- ignores_trace (match ?x with _ => _ end) => destruct x
  end.

Lemma ignores_trace_entity_prediction (m : module) (s : sample states) (i : nat) :
  ignores_trace (entity_prediction m s i).
Proof.
  unfold entity_prediction, question_of, first_row_softmax. cbv zeta.
  repeat ignores_trace_step.
Qed.

Lemma ignores_trace_test_model_conversion (a : args) (m : module)
    (test_set : list (sample states)) (name : string) (iteration : Z) :
  ignores_trace (test_model_conversion a m test_set name iteration).
Proof.
  unfold test_model_conversion, sample_prediction. cbv zeta.
  ignores_trace_step.
  - ignores_trace_step. ignores_trace_step. apply ignores_trace_entity_prediction.
  - repeat ignores_trace_step.
Qed.

Lemma ignores_trace_evaluate_dev (a : args) (m : module) (dev_set : list (sample states))
    (iteration : Z) : ignores_trace (evaluate_dev a m dev_set iteration).
Proof.
  unfold evaluate_dev. cbv zeta.
  ignores_trace_step.
  - ignores_trace_step. apply ignores_trace_test_model_conversion.
  - repeat ignores_trace_step.
Qed.

Lemma ignores_trace_batch_iteration (a : args) (ls : loop_state) (acc : Q) (b : batch) :
  ignores_trace (batch_iteration a ls acc b).
Proof.
  unfold batch_iteration, optimizer_update. cbv zeta.
  repeat ignores_trace_step.
Qed.

Lemma ignores_trace_batch_loop (a : args) (bs : list batch) :
  forall (ls : loop_state) (acc : Q), ignores_trace (batch_loop a ls acc bs).
Proof.
  induction bs as [|b rest IH]; intros ls acc; simpl.
  - apply ignores_trace_ret.
  - apply ignores_trace_bind; [apply ignores_trace_batch_iteration|].
    intros r. apply IH.
Qed.

Lemma ignores_trace_train_epoch (a : args) (dev_set : list (sample states)) (ls : loop_state)
    (iteration : Z) : ignores_trace (train_epoch a dev_set ls iteration).
Proof.
  unfold train_epoch, baseline_evaluation, save_if_best. cbv zeta.
  ignores_trace_step.
  { ignores_trace_step; [| ignores_trace_step].
    ignores_trace_step; [apply ignores_trace_evaluate_dev | ignores_trace_step]. }
  ignores_trace_step; [ignores_trace_step|].
  ignores_trace_step; [apply ignores_trace_batch_loop|].
  ignores_trace_step; [ignores_trace_step|].
  ignores_trace_step; [apply ignores_trace_evaluate_dev|].
  repeat ignores_trace_step.
Qed.

Lemma ignores_trace_train_epochs (a : args) (dev_set : list (sample states))
    (iterations : list Z) :
  forall ls : loop_state, ignores_trace (train_epochs a dev_set ls iterations).
Proof.
  induction iterations as [|i rest IH]; intros ls; simpl.
  - apply ignores_trace_ret.
  - apply ignores_trace_bind; [apply ignores_trace_train_epoch|].
    intros ls'. apply IH.
Qed.

Lemma ignores_trace_train (a : args) (m : module) : ignores_trace (train a m).
Proof.
  unfold train. cbv zeta.
  ignores_trace_step; [ignores_trace_step|].
  apply ignores_trace_train_epochs.
Qed.

Lemma ignores_trace_final_evaluation (a : args) (m : module) :
  ignores_trace (final_evaluation a m).
Proof.
  unfold final_evaluation. cbv zeta.
  apply ignores_trace_bind.
  { intros w pre. simpl.
    destruct (checkpoints w (output_dir a ++ "/best_model")%string); [|reflexivity].
    simpl. f_equal. unfold with_prefix, set_trace. simpl. rewrite app_assoc. reflexivity. }
  intros loaded.
  ignores_trace_step; [apply ignores_trace_test_model_conversion|].
  repeat ignores_trace_step.
Qed.

Lemma ignores_trace_run (a : args) : ignores_trace (run a).
Proof.
  unfold run. cbv zeta.
  ignores_trace_step; [ignores_trace_step|].
  ignores_trace_step; [repeat ignores_trace_step|].
  ignores_trace_step; [repeat ignores_trace_step|].
  ignores_trace_step; [ignores_trace_step|].
  ignores_trace_step; [ignores_trace_step|].
  ignores_trace_step; [ignores_trace_step|].
  ignores_trace_step.
  - ignores_trace_step; [| ignores_trace_step].
    ignores_trace_step; [apply ignores_trace_train | ignores_trace_step].
  - ignores_trace_step; [apply ignores_trace_final_evaluation | ignores_trace_step].
Qed.

(** ** The warning about the output directory *)

Lemma world_as_prefix (w : world) (t : list event) :
  set_trace w (trace w ++ t) = with_prefix (trace w ++ t) (set_trace w []).
Proof.
  unfold with_prefix, set_trace. simpl. rewrite app_nil_r. reflexivity.
Qed.

Lemma warn_on_directory (a : args) (w : world) (e : string) (es : list string) :
  fs w (output_dir a) = Directory (e :: es) ->
  warn_if_not_empty a w =
    (inr tt,
     set_trace w (trace w ++ if do_train a then [PrintWarning (output_dir a)] else [])).
Proof.
  intros Hd. unfold warn_if_not_empty, bind, os_path_exists, os_listdir.
  simpl. rewrite Hd. simpl. rewrite Hd.
  destruct (do_train a); simpl.
  - reflexivity.
  - unfold ret. f_equal. destruct w. unfold set_trace. simpl.
    rewrite app_nil_r. reflexivity.
Qed.

(** C9 as amended: when the output directory exists and is not empty,
    the warning is printed exactly when training was requested; in
    either case nothing else happens before the run goes on, and the
    run has the same outcome and does the same things as it would have
    without the message. *)
Theorem warning_only_when_training (parsed a : args) (w : world) (e : string)
    (es : list string) :
  choose_output_dir parsed w = (inr a, w) ->
  fs w (output_dir a) = Directory (e :: es) ->
  exists t : list event,
    warn_if_not_empty a w =
      (inr tt,
       set_trace w (trace w ++ if do_train a then [PrintWarning (output_dir a)] else [])) /\
    trace (snd (run a w)) = trace w ++ t /\
    fst (main parsed w) = fst (run a w) /\
    trace (snd (main parsed w)) =
      trace w ++ (if do_train a then [PrintWarning (output_dir a)] else []) ++ t.
Proof.
  intros Hc Hd.
  pose proof (warn_on_directory a w e es Hd) as Hw.
  exists (trace (snd (run a (set_trace w [])))).
  split; [exact Hw|].
  assert (forall x : list event,
            run a (set_trace w (trace w ++ x)) =
            (fst (run a (set_trace w [])),
             with_prefix (trace w ++ x) (snd (run a (set_trace w []))))) as Hrun.
  { intros x. rewrite world_as_prefix. apply ignores_trace_run. }
  assert (run a w = (fst (run a (set_trace w [])),
                     with_prefix (trace w) (snd (run a (set_trace w []))))) as Hrun0.
  { pose proof (Hrun []) as H0. rewrite app_nil_r in H0.
    replace (set_trace w (trace w)) with w in H0 by (destruct w; reflexivity).
    exact H0. }
  assert (main parsed w =
          run a (set_trace w (trace w ++
                   if do_train a then [PrintWarning (output_dir a)] else []))) as Hmain.
  { unfold main, bind. rewrite Hc, Hw. reflexivity. }
  rewrite Hmain, Hrun, Hrun0. simpl.
  rewrite <- app_assoc. auto.
Qed.

(** ** The batch of one entity *)

(** Lines 48 and 50: whatever [make_timestep_sequence] returns, the
    batch of a variant has one row per element of its tag sequence, and
    every row is the token-id sequence of the variant. *)
Lemma entity_inputs_rows (question : string) (s : sample states) :
  let '(batch_input_A, batch_input_B, timestep_ids_A, timestep_ids_B) :=
    entity_inputs question s in
  List.length batch_input_A = List.length timestep_ids_A /\
  List.length batch_input_B = List.length timestep_ids_B /\
  Forall (fun row => row = para_ids (tokenize false (lower question))
                            (map (fun sent => tokenize true (lower sent))
                               (story_A_sentences s))) batch_input_A /\
  Forall (fun row => row = para_ids (tokenize false (lower question))
                            (map (fun sent => tokenize true (lower sent))
                               (story_B_sentences s))) batch_input_B.
Proof.
  unfold entity_inputs. cbv zeta.
  rewrite !repeat_length.
  repeat split; apply Forall_forall; intros row Hin; apply repeat_spec in Hin; exact Hin.
Qed.

(** ** What an evaluation writes *)

Lemma for_each_related (A B : Type) (R : A -> B -> Prop) (f : A -> M B) (l : list A) :
  (forall (x : A) (w : world) (y : B) (w' : world), f x w = (inr y, w') -> R x y) ->
  forall (w : world) (ys : list B) (w' : world),
    for_each f l w = (inr ys, w') -> Forall2 R l ys.
Proof.
  intros Hf. induction l as [|x rest IH]; intros w ys w' H; simpl in H.
  - inversion H. constructor.
  - unfold bind in H.
    destruct (f x w) as [[e|y] w1] eqn:Hx; [discriminate|].
    destruct (for_each f rest w1) as [[e|ys1] w2] eqn:Hr; [discriminate|].
    inversion H. subst. constructor; [eapply Hf; eauto | eapply IH; eauto].
Qed.

Lemma for_each_raises (A B : Type) (P : exn -> Prop) (f : A -> M B) (l : list A) :
  (forall (x : A) (w : world) (e : exn) (w' : world), f x w = (inl e, w') -> P e) ->
  forall (w : world) (e : exn) (w' : world),
    for_each f l w = (inl e, w') -> P e.
Proof.
  intros Hf. induction l as [|x rest IH]; intros w e w' H; simpl in H.
  - inversion H.
  - unfold bind in H.
    destruct (f x w) as [[e1|y] w1] eqn:Hx.
    + inversion H. subst. eapply Hf; eauto.
    + destruct (for_each f rest w1) as [[e2|ys1] w2] eqn:Hr.
      * inversion H. subst. eapply IH; eauto.
      * inversion H.
Qed.

Lemma frames_entity_prediction_forward (m : module) (s : sample states) (i : nat) (g : bool) :
  frames g (forward_event (training m) g) (entity_prediction m s i).
Proof.
  unfold entity_prediction.
  apply frames_bind.
  { unfold question_of. destruct (nth_error _ _); frames_step. }
  intros question.
  destruct (entity_inputs question s) as [[[bA bB] tA] tB].
  repeat frames_step.
Qed.

Lemma frames_predictions (m : module) (test_set : list (sample states)) (g : bool) :
  frames g (forward_event (training m) g) (for_each (sample_prediction m) test_set).
Proof.
  apply frames_for_each. intros s. unfold sample_prediction.
  apply frames_for_each. intros i. apply frames_entity_prediction_forward.
Qed.

Lemma entity_prediction_raises (m : module) (s : sample states) (i : nat)
    (w w' : world) (e : exn) :
  entity_prediction m s i w = (inl e, w') -> e = IndexError.
Proof.
  unfold entity_prediction, question_of, bind.
  destruct (nth_error (possible_participants_converted_to s) i) as [candidate|];
    [|unfold raise; congruence].
  unfold ret at 1. cbv beta iota.
  destruct (entity_inputs (participant_converted s ++ "?!</s>" ++ candidate ++ "?!</s>") s)
    as [[[bA bB] tA] tB].
  unfold get_grad_enabled, emit, draw, first_row_softmax. simpl.
  destruct (infer (params m) (training m) bA bB tA tB (rng w)) as [[[o0 o1] o2] r].
  simpl.
  destruct (map softmax o0); [unfold raise; congruence|]. simpl.
  destruct (map softmax o1); [unfold raise; congruence|]. simpl.
  destruct (map softmax o2); [unfold raise; congruence|]. simpl.
  unfold ret. congruence.
Qed.

Lemma predictions_raise (m : module) (test_set : list (sample states)) (w w' : world)
    (e : exn) :
  for_each (sample_prediction m) test_set w = (inl e, w') -> e = IndexError.
Proof.
  intros H.
  eapply (for_each_raises _ _ (fun x => x = IndexError)); [|exact H].
  intros s w1 e1 w1' H1. unfold sample_prediction in H1.
  eapply (for_each_raises _ _ (fun x => x = IndexError)); [|exact H1].
  intros i w2 e2 w2' H2. eapply entity_prediction_raises; eauto.
Qed.

Lemma predictions_shape (m : module) (test_set : list (sample states)) (w w' : world)
    (preds : predictions) :
  for_each (sample_prediction m) test_set w = (inr preds, w') ->
  Forall2 (fun s p => List.length p = List.length (compact_states s)) test_set preds.
Proof.
  intros H0.
  eapply (for_each_related _ _
            (fun s p => List.length p = List.length (compact_states s))); [|exact H0].
  intros s w1 p w1' H.
  unfold sample_prediction in H.
  apply for_each_related with (R := fun _ _ => True) in H; [|auto].
  apply Forall2_length in H. rewrite length_seq in H. symmetry. exact H.
Qed.

Lemma test_model_conversion_steps (a : args) (m : module) (test_set : list (sample states))
    (name : string) (iteration : Z) (w : world) :
  test_model_conversion a m test_set name iteration w =
    match for_each (sample_prediction m) test_set w with
    | (inl e, w1) => (inl e, w1)
    | (inr preds, w1) =>
        (inr (snd (scored name preds), snd (fst (scored name preds)),
              fst (fst (scored name preds))),
         set_trace w1 (trace w1 ++ evaluation_report a name iteration preds))
    end.
Proof.
  unfold test_model_conversion, bind.
  destruct (for_each (sample_prediction m) test_set w) as [[e|preds] w1]; [reflexivity|].
  unfold scored, reference_file, evaluation_report, predictions_file, scored, reference_file.
  cbv zeta.
  destruct (official_evaluate _ _) as [[accuracy consistency] verifiability].
  unfold emit, ret. simpl. rewrite <- app_assoc. reflexivity.
Qed.

Lemma predictions_trace (m : module) (test_set : list (sample states)) (w : world) :
  exists fw : list event,
    trace (snd (for_each (sample_prediction m) test_set w)) = trace w ++ fw /\
    Forall (forward_event (training m) (grad_enabled w)) fw /\
    fs (snd (for_each (sample_prediction m) test_set w)) = fs w /\
    checkpoints (snd (for_each (sample_prediction m) test_set w)) = checkpoints w /\
    grad_enabled (snd (for_each (sample_prediction m) test_set w)) = grad_enabled w.
Proof.
  destruct (frames_predictions m test_set (grad_enabled w) w eq_refl)
    as (Hfs & Hck & Hg & fw & Ht & HP).
  exists fw. auto.
Qed.

Lemma test_model_conversion_returns
    (a : args) (m : module) (test_set : list (sample states)) (name : string)
    (iteration : Z) (w w' : world) (r : Q * Q * Q) :
  test_model_conversion a m test_set name iteration w = (inr r, w') ->
  exists (preds : predictions) (fw : list event),
    Forall2 (fun s p => List.length p = List.length (compact_states s)) test_set preds /\
    Forall (forward_event (training m) (grad_enabled w)) fw /\
    trace w' = trace w ++ fw ++ evaluation_report a name iteration preds /\
    r = (snd (scored name preds), snd (fst (scored name preds)),
         fst (fst (scored name preds))) /\
    fs w' = fs w /\ checkpoints w' = checkpoints w /\ grad_enabled w' = grad_enabled w.
Proof.
  rewrite test_model_conversion_steps.
  destruct (predictions_trace m test_set w) as (fw & Ht & HP & Hfs & Hck & Hg).
  destruct (for_each (sample_prediction m) test_set w) as [[e|preds] w1] eqn:Hp;
    [discriminate|].
  intros H. inversion H. subst. clear H.
  exists preds, fw. simpl in *.
  split; [eapply predictions_shape; eauto|].
  split; [exact HP|].
  split; [rewrite Ht, <- app_assoc; reflexivity|].
  auto.
Qed.

(** An evaluation that returns has called the model only in the mode
    and with the tracking it was started in, has written one prediction
    per entity of every sample, in order, and returns the metrics it
    printed, which are those of the predictions it wrote. *)
Lemma evaluation_writes_one_prediction_per_entity
    (a : args) (m : module) (test_set : list (sample states)) (name : string)
    (iteration : Z) (w w' : world) (r : Q * Q * Q) :
  test_model_conversion a m test_set name iteration w = (inr r, w') ->
  exists (preds : predictions) (fw : list event),
    Forall2 (fun s p => List.length p = List.length (compact_states s)) test_set preds /\
    Forall (forward_event (training m) (grad_enabled w)) fw /\
    trace w' = trace w ++ fw ++ evaluation_report a name iteration preds /\
    r = (snd (scored name preds), snd (fst (scored name preds)),
         fst (fst (scored name preds))) /\
    checkpoints w' = checkpoints w /\ grad_enabled w' = grad_enabled w.
Proof.
  intros H. apply test_model_conversion_returns in H.
  destruct H as (preds & fw & H1 & H2 & H3 & H4 & _ & H5 & H6).
  exists preds, fw. repeat split; assumption.
Qed.

Lemma for_each_stops (A B : Type) (f : A -> M B) (l : list A) :
  Exists (fun x => forall w : world, exists e : exn, fst (f x w) = inl e) l ->
  forall w : world, exists e : exn, fst (for_each f l w) = inl e.
Proof.
  induction l as [|x rest IH]; intros H w.
  - inversion H.
  - simpl. unfold bind.
    destruct (f x w) as [[e1|y] w1] eqn:Hx; [exists e1; reflexivity|].
    apply Exists_cons in H. destruct H as [H|H].
    + destruct (H w) as (e & He). rewrite Hx in He. discriminate.
    + destruct (IH H w1) as (e & He).
      destruct (for_each f rest w1) as [[e2|ys] w2]; [exists e2; reflexivity|].
      discriminate.
Qed.

Lemma sample_prediction_stops (m : module) (s : sample states) :
  (List.length (possible_participants_converted_to s) < List.length (compact_states s))%nat ->
  forall w : world, exists e : exn, fst (sample_prediction m s w) = inl e.
Proof.
  intros Hlen. unfold sample_prediction. apply for_each_stops.
  apply Exists_exists.
  exists (List.length (possible_participants_converted_to s)). split.
  - apply in_seq. lia.
  - intros w. exists IndexError.
    unfold entity_prediction, question_of, bind.
    replace (nth_error (possible_participants_converted_to s)
               (List.length (possible_participants_converted_to s)))
      with (@None string) by (symmetry; apply nth_error_None; lia).
    reflexivity.
Qed.

(** When some sample of the test set has more entities (elements of
    [compact_states]) than candidates, the evaluation raises
    [IndexError], and all it has done by then are model calls: no
    predictions file is written, not even for the samples that came
    before, and nothing is printed or scored. *)
Lemma evaluation_failure_writes_nothing
    (a : args) (m : module) (test_set : list (sample states)) (name : string)
    (iteration : Z) (w : world) :
  Exists (fun s => (List.length (possible_participants_converted_to s)
                    < List.length (compact_states s))%nat) test_set ->
  fst (test_model_conversion a m test_set name iteration w) = inl IndexError /\
  exists fw : list event,
    trace (snd (test_model_conversion a m test_set name iteration w)) = trace w ++ fw /\
    Forall (forward_event (training m) (grad_enabled w)) fw /\
    checkpoints (snd (test_model_conversion a m test_set name iteration w)) = checkpoints w /\
    grad_enabled (snd (test_model_conversion a m test_set name iteration w)) = grad_enabled w.
Proof.
  intros Hshort.
  assert (exists e : exn, fst (for_each (sample_prediction m) test_set w) = inl e)
    as (e0 & He0).
  { apply for_each_stops. eapply Exists_impl; [|exact Hshort].
    intros s Hs. apply sample_prediction_stops. exact Hs. }
  rewrite test_model_conversion_steps.
  destruct (predictions_trace m test_set w) as (fw & Ht & HP & _ & Hck & Hg).
  destruct (for_each (sample_prediction m) test_set w) as [[e1|preds] w1] eqn:Hp;
    [|discriminate].
  cbn [fst snd] in *.
  split; [f_equal; eapply predictions_raise; eauto|].
  exists fw. auto.
Qed.

Lemma evaluate_dev_steps (a : args) (m : module) (dev_set : list (sample states))
    (iteration : Z) (w w' : world) (m' : module) (v : Q) :
  evaluate_dev a m dev_set iteration w = (inr (m', v), w') ->
  m' = set_training m false /\
  exists (preds : predictions) (fw : list event),
    Forall2 (fun s p => List.length p = List.length (compact_states s)) dev_set preds /\
    Forall (forward_event false false) fw /\
    v = snd (scored "dev_conversion" preds) /\
    trace w' = trace w ++ fw ++ evaluation_report a "dev_conversion" iteration preds ++
      [AppendResults (output_dir a ++ "/results_epoch_dev.json")
         (fst (fst (scored "dev_conversion" preds)))
         (snd (fst (scored "dev_conversion" preds))) v] /\
    fs w' = fs w /\ checkpoints w' = checkpoints w /\ grad_enabled w' = grad_enabled w /\
    rng w' = rng (snd (test_model_conversion a (set_training m false) dev_set
                         "dev_conversion" iteration (set_grad_enabled w false))).
Proof.
  unfold evaluate_dev, bind, no_grad. cbv zeta.
  destruct (test_model_conversion a (set_training m false) dev_set "dev_conversion"
              iteration (set_grad_enabled w false)) as [[e|r] w1] eqn:Ht; [discriminate|].
  apply test_model_conversion_returns in Ht.
  destruct Ht as (preds & fw & Hshape & HP & Htr & Hr & Hfs & Hck & Hg).
  subst r. unfold emit, ret. simpl. intros H. inversion H. subst. clear H.
  split; [reflexivity|].
  exists preds, fw. simpl in *.
  split; [exact Hshape|]. split; [exact HP|]. split; [reflexivity|].
  split; [rewrite Htr, <- !app_assoc; reflexivity|].
  auto.
Qed.

(** ** What the loop over the batches prints and adds up *)

Lemma flat_map_nothing (B : Type) (P : event -> Prop) (g : event -> list B) (t : list event) :
  (forall e, P e -> g e = []) -> Forall P t -> flat_map g t = [].
Proof.
  intros Hg H. induction H as [|e t He Ht IH]; simpl; [reflexivity|].
  rewrite (Hg e He), IH. reflexivity.
Qed.

Lemma count_nothing (P : event -> Prop) (f : event -> bool) (t : list event) :
  (forall e, P e -> f e = false) -> Forall P t -> count f t = 0%Z.
Proof.
  intros Hf H. unfold count. induction H as [|e t He Ht IH]; simpl; [reflexivity|].
  rewrite (Hf e He). exact IH.
Qed.

Lemma Qsum_app (l l' : list Q) : Qsum (l ++ l') == Qsum l + Qsum l'.
Proof.
  unfold Qsum. induction l as [|x l IH]; simpl.
  - ring.
  - rewrite IH. ring.
Qed.

Lemma backward_losses_app (t t' : list event) :
  backward_losses (t ++ t') = backward_losses t ++ backward_losses t'.
Proof. unfold backward_losses. apply flat_map_app. Qed.

Lemma batch_iteration_steps (a : args) (ls ls' : loop_state) (acc acc' : Q) (b : batch)
    (w w' : world) :
  batch_iteration a ls acc b w = (inr (ls', acc'), w') ->
  exists (q : Q) (rest : list event),
    trace w' = trace w ++ [Forward (training (mdl ls)) (grad_enabled w); Backward q] ++ rest /\
    (rest = [] \/
     rest = [ClipGradNorm (max_grad_norm a); OptimizerStep; SchedulerStep; ZeroGrad]) /\
    acc' = acc + q /\
    global_step ls' = (global_step ls + 1)%Z /\
    training (mdl ls') = training (mdl ls) /\
    fs w' = fs w /\ checkpoints w' = checkpoints w /\ grad_enabled w' = grad_enabled w.
Proof.
  unfold batch_iteration, bind, get_grad_enabled, emit, draw. simpl.
  destruct (forward _ _ _ _) as [hl r].
  destruct (backward_arg _) as [e|q]; [discriminate|].
  simpl. unfold modulo.
  destruct (gradient_accumulation_steps a =? 0)%Z; [discriminate|].
  simpl.
  destruct (_ =? 0)%Z; simpl; intros H; inversion H; subst; clear H; simpl.
  - exists q, [ClipGradNorm (max_grad_norm a); OptimizerStep; SchedulerStep; ZeroGrad].
    rewrite <- !app_assoc. simpl. repeat split; auto.
  - exists q, []. rewrite <- !app_assoc. simpl. repeat split; auto.
Qed.

Lemma batch_loop_steps (a : args) (bs : list batch) :
  forall (ls ls' : loop_state) (acc acc' : Q) (w w' : world),
    batch_loop a ls acc bs w = (inr (ls', acc'), w') ->
    exists t : list event,
      trace w' = trace w ++ t /\
      Forall batch_event t /\
      acc' == acc + Qsum (backward_losses t) /\
      List.length (backward_losses t) = List.length bs /\
      global_step ls' = (global_step ls + Z.of_nat (List.length bs))%Z /\
      training (mdl ls') = training (mdl ls) /\
      fs w' = fs w /\ checkpoints w' = checkpoints w /\ grad_enabled w' = grad_enabled w.
Proof.
  induction bs as [|b rest IH]; intros ls ls' acc acc' w w' H.
  - simpl in H. inversion H. subst.
    exists []. rewrite app_nil_r. simpl. repeat split; auto.
    + unfold Qsum. simpl. ring.
    + lia.
  - simpl in H. unfold bind in H.
    destruct (batch_iteration a ls acc b w) as [[e|[ls1 acc1]] w1] eqn:Hb; [discriminate|].
    simpl in H.
    apply batch_iteration_steps in Hb.
    destruct Hb as (q & tail & Ht & Htail & Hacc & Hgs & Htr & Hfs & Hck & Hg).
    apply IH in H.
    destruct H as (t & Ht' & HP & Hacc' & Hlen & Hgs' & Htr' & Hfs' & Hck' & Hg').
    exists (([Forward (training (mdl ls)) (grad_enabled w); Backward q] ++ tail) ++ t).
    assert (backward_losses tail = []) as Hbl by (destruct Htail; subst; reflexivity).
    assert (Forall batch_event tail) as Hbe
      by (destruct Htail; subst; repeat constructor).
    split; [rewrite Ht', Ht, <- !app_assoc; reflexivity|].
    split.
    { apply Forall_app. split; [|exact HP].
      apply Forall_app. split; [repeat constructor | exact Hbe]. }
    rewrite !backward_losses_app, Hbl.
    split.
    { rewrite Hacc', Hacc. unfold Qsum. simpl. ring. }
    split; [simpl; rewrite Hlen; reflexivity|].
    split; [rewrite Hgs', Hgs; simpl List.length; lia|].
    split; [congruence|].
    split; [congruence|]. split; congruence.
Qed.

(** ** What one epoch prints and writes *)

Lemma epoch_losses_app (t t' : list event) :
  epoch_losses (t ++ t') = epoch_losses t ++ epoch_losses t'.
Proof. unfold epoch_losses. apply flat_map_app. Qed.

Lemma printed_scores_app (t t' : list event) :
  printed_scores (t ++ t') = printed_scores t ++ printed_scores t'.
Proof. unfold printed_scores. apply flat_map_app. Qed.

Lemma forward_event_batch_event (mode tracking : bool) (e : event) :
  forward_event mode tracking e -> batch_event e.
Proof. destruct e; simpl; auto. Qed.

Lemma batch_events_measures (t : list event) :
  Forall batch_event t ->
  count is_append_results t = 0%Z /\ count is_dump t = 0%Z /\ count is_save t = 0%Z /\
  epoch_losses t = [] /\ printed_scores t = [].
Proof.
  intros H. repeat split.
  - apply count_nothing with (P := batch_event); [|exact H].
    intros e; destruct e; simpl; auto; contradiction.
  - apply count_nothing with (P := batch_event); [|exact H].
    intros e; destruct e; simpl; auto; contradiction.
  - apply count_nothing with (P := batch_event); [|exact H].
    intros e; destruct e; simpl; auto; contradiction.
  - apply flat_map_nothing with (P := batch_event); [|exact H].
    intros e; destruct e; simpl; auto; contradiction.
  - apply flat_map_nothing with (P := batch_event); [|exact H].
    intros e; destruct e; simpl; auto; contradiction.
Qed.

Lemma forward_events_no_backward (mode tracking : bool) (t : list event) :
  Forall (forward_event mode tracking) t -> backward_losses t = [].
Proof.
  apply flat_map_nothing. intros e; destruct e; simpl; auto; contradiction.
Qed.

Lemma dev_evaluation_events_measures (a : args) (iteration : Z) (preds : predictions)
    (fw : list event) :
  Forall (forward_event false false) fw ->
  count is_append_results (dev_evaluation_events a iteration preds fw) = 1%Z /\
  count is_dump (dev_evaluation_events a iteration preds fw) = 1%Z /\
  count is_save (dev_evaluation_events a iteration preds fw) = 0%Z /\
  epoch_losses (dev_evaluation_events a iteration preds fw) = [] /\
  backward_losses (dev_evaluation_events a iteration preds fw) = [] /\
  printed_scores (dev_evaluation_events a iteration preds fw) =
    [(iteration, snd (scored "dev_conversion" preds))].
Proof.
  intros H.
  assert (Forall batch_event fw) as Hb.
  { eapply Forall_impl; [|exact H]. intros e. apply forward_event_batch_event. }
  destruct (batch_events_measures fw Hb) as (H1 & H2 & H3 & H4 & H5).
  pose proof (forward_events_no_backward _ _ _ H) as H6.
  unfold dev_evaluation_events, evaluation_report.
  rewrite !count_app, epoch_losses_app, backward_losses_app, printed_scores_app.
  rewrite H1, H2, H3, H4, H5, H6. repeat split.
Qed.

Lemma baseline_evaluation_steps (a : args) (dev_set : list (sample states))
    (ls ls0 : loop_state) (iteration : Z) (w w0 : world) :
  baseline_evaluation a dev_set ls iteration w = (inr ls0, w0) ->
  (iteration = 0%Z /\
   exists (m0 : module) (v0 : Q),
     evaluate_dev a (mdl ls) dev_set 0 w = (inr (m0, v0), w0) /\ ls0 = set_mdl ls m0) \/
  (iteration <> 0%Z /\ ls0 = ls /\ w0 = w).
Proof.
  unfold baseline_evaluation.
  destruct (Z.eqb_spec iteration 0) as [E|E].
  - unfold bind.
    destruct (evaluate_dev a (mdl ls) dev_set 0 w) as [[e|[m0 v0]] w1] eqn:He;
      [discriminate|].
    unfold ret. intros H. inversion H. subst. left. split; [reflexivity|].
    exists m0, v0. auto.
  - unfold ret. intros H. inversion H. subst. right. auto.
Qed.

Lemma train_epoch_steps (a : args) (dev_set : list (sample states)) (ls ls' : loop_state)
    (iteration : Z) (w w' : world) :
  train_epoch a dev_set ls iteration w = (inr ls', w') ->
  exists (ls0 lsB : loop_state) (w0 wB wE : world) (accB v : Q) (mE : module),
    baseline_evaluation a dev_set ls iteration w = (inr ls0, w0) /\
    batch_loop a (set_mdl ls0 (set_training (mdl ls0) true)) 0
      (fst (data_loader (max_train_data a) (per_gpu_train_batch_size a) (rng w0)))
      (set_rng w0 (snd (data_loader (max_train_data a) (per_gpu_train_batch_size a) (rng w0))))
      = (inr (lsB, accB), wB) /\
    evaluate_dev a (mdl lsB) dev_set (iteration + 1)
      (set_trace wB (trace wB ++ [PrintLoss accB])) = (inr (mE, v), wE) /\
    save_if_best a (set_mdl lsB mE) v wE = (inr ls', w').
Proof.
  unfold train_epoch. unfold bind at 1.
  intros H.
  destruct (baseline_evaluation a dev_set ls iteration w) as [[e|ls0] w0] eqn:H0;
    [discriminate|].
  cbv zeta in H. unfold bind at 1 in H. unfold draw at 1 in H.
  destruct (data_loader (max_train_data a) (per_gpu_train_batch_size a) (rng w0))
    as [bs r] eqn:Hd.
  unfold bind at 1 in H.
  destruct (batch_loop a _ 0 bs (set_rng w0 r)) as [[e|[lsB accB]] wB] eqn:Hb;
    [discriminate|].
  unfold bind at 1 in H. unfold emit at 1 in H. simpl fst in H. simpl snd in H.
  unfold bind at 1 in H.
  destruct (evaluate_dev a (mdl lsB) dev_set (iteration + 1) _) as [[e|[mE v]] wE] eqn:He;
    [discriminate|].
  simpl fst in H. simpl snd in H.
  exists ls0, lsB, w0, wB, wE, accB, v, mE.
  rewrite Hd. simpl. repeat split; auto.
Qed.

Lemma evaluate_dev_events (a : args) (m : module) (dev_set : list (sample states))
    (iteration : Z) (w w' : world) (m' : module) (v : Q) :
  evaluate_dev a m dev_set iteration w = (inr (m', v), w') ->
  m' = set_training m false /\
  exists (preds : predictions) (fw : list event),
    Forall (forward_event false false) fw /\
    v = snd (scored "dev_conversion" preds) /\
    trace w' = trace w ++ dev_evaluation_events a iteration preds fw /\
    fs w' = fs w /\ checkpoints w' = checkpoints w /\ grad_enabled w' = grad_enabled w.
Proof.
  intros H. apply evaluate_dev_steps in H.
  destruct H as (Hm & preds & fw & _ & HP & Hv & Ht & Hfs & Hck & Hg & _).
  split; [exact Hm|]. exists preds, fw.
  split; [exact HP|]. split; [exact Hv|].
  split; [|auto].
  rewrite Ht. unfold dev_evaluation_events. rewrite Hv. reflexivity.
Qed.

Lemma train_epoch_summary (a : args) (dev_set : list (sample states)) (ls ls' : loop_state)
    (iteration : Z) (w w' : world) :
  train_epoch a dev_set ls iteration w = (inr ls', w') ->
  exists (t : list event) (v : Q),
    trace w' = trace w ++ t /\
    count is_append_results t = (if (iteration =? 0)%Z then 2 else 1)%Z /\
    count is_dump t = (if (iteration =? 0)%Z then 2 else 1)%Z /\
    (exists x : Q, epoch_losses t = [x] /\ x == Qsum (backward_losses t)) /\
    (exists pre : list (Z * Q),
       printed_scores t = pre ++ [((iteration + 1)%Z, v)] /\
       Forall (fun p => fst p = 0%Z) pre) /\
    best_verifiability ls' =
      (if Qle_bool (best_verifiability ls) v then v else best_verifiability ls) /\
    count is_save t = (if Qle_bool (best_verifiability ls) v then 1 else 0)%Z /\
    training (mdl ls') = false /\
    fs w' = fs w /\ grad_enabled w' = grad_enabled w /\
    (forall q : string,
       q <> (output_dir a ++ "/best_model")%string -> checkpoints w' q = checkpoints w q).
Proof.
  intros H. apply train_epoch_steps in H.
  destruct H as (ls0 & lsB & w0 & wB & wE & accB & v & mE & H0 & Hb & He & Hs).
  (* the baseline evaluation *)
  assert (exists base : list event,
            trace w0 = trace w ++ base /\
            count is_append_results base = (if (iteration =? 0)%Z then 1 else 0)%Z /\
            count is_dump base = (if (iteration =? 0)%Z then 1 else 0)%Z /\
            count is_save base = 0%Z /\
            epoch_losses base = [] /\ backward_losses base = [] /\
            Forall (fun p => fst p = 0%Z) (printed_scores base) /\
            best_verifiability ls0 = best_verifiability ls /\
            fs w0 = fs w /\ checkpoints w0 = checkpoints w /\
            grad_enabled w0 = grad_enabled w)
    as (base & Htb & Bap & Bdu & Bsa & Bel & Bbl & Bps & Bbest & Bfs & Bck & Bg).
  { apply baseline_evaluation_steps in H0.
    destruct H0 as [(Hit & m0 & v0 & Hev & Hls0) | (Hit & Hls0 & Hw0)].
    - apply evaluate_dev_events in Hev.
      destruct Hev as (_ & preds0 & fw0 & HP0 & _ & Ht0 & Hfs0 & Hck0 & Hg0).
      destruct (dev_evaluation_events_measures a 0 preds0 fw0 HP0)
        as (M1 & M2 & M3 & M4 & M5 & M6).
      exists (dev_evaluation_events a 0 preds0 fw0).
      subst iteration ls0. simpl.
      rewrite M6. repeat split; auto.
    - subst ls0 w0. exists []. rewrite app_nil_r.
      destruct (Z.eqb_spec iteration 0); [contradiction|].
      repeat split; auto. }
  (* the batches *)
  pose proof (batch_loop_keep_best _ _ _ _ _ _ _ _ Hb) as Hbest. simpl in Hbest.
  apply batch_loop_steps in Hb.
  destruct Hb as (tb & Httb & HPb & Hacc & _ & _ & Htrb & Hfsb & Hckb & Hgb).
  simpl in Httb, Hfsb, Hckb, Hgb.
  destruct (batch_events_measures tb HPb) as (T1 & T2 & T3 & T4 & T5).
  (* the evaluation of the epoch *)
  apply evaluate_dev_events in He.
  destruct He as (HmE & preds & fw & HP & Hv & HtE & HfsE & HckE & HgE).
  simpl in HtE, HfsE, HckE, HgE.
  destruct (dev_evaluation_events_measures a (iteration + 1) preds fw HP)
    as (E1 & E2 & E3 & E4 & E5 & E6).
  (* the checkpoint decision *)
  destruct (save_if_best_spec a (set_mdl lsB mE) v wE)
    as (ls'' & w'' & Hs' & Hmdl & _ & HfsS & _ & HgS & Hyes & Hno & _).
  rewrite Hs in Hs'. inversion Hs'. subst ls'' w''. clear Hs'.
  simpl in Hyes, Hno, Hmdl.
  assert (best_verifiability lsB = best_verifiability ls) as Hbest' by congruence.
  rewrite Hbest' in Hyes, Hno.
  assert (exists save : list event,
            trace w' = trace wE ++ save /\
            count is_append_results save = 0%Z /\ count is_dump save = 0%Z /\
            count is_save save = (if Qle_bool (best_verifiability ls) v then 1 else 0)%Z /\
            epoch_losses save = [] /\ backward_losses save = [] /\
            printed_scores save = [] /\
            best_verifiability ls' =
              (if Qle_bool (best_verifiability ls) v then v else best_verifiability ls) /\
            (forall q : string,
               q <> (output_dir a ++ "/best_model")%string ->
               checkpoints w' q = checkpoints wE q))
    as (save & Hts & S1 & S2 & S3 & S4 & S5 & S6 & Sbest & Sck).
  { destruct (Qle_bool (best_verifiability ls) v) eqn:Hle.
    - apply Qle_bool_iff in Hle. destruct (Hyes Hle) as (_ & Hb1 & Ht1).
      exists [SaveCheckpoint (output_dir a ++ "/best_model")].
      repeat split; auto.
      intros q Hq. revert Hs. unfold save_if_best. simpl.
      rewrite Hbest'. rewrite (proj2 (Qle_bool_iff _ _) Hle).
      unfold bind, torch_save, ret. simpl. intros Hs. inversion Hs. simpl.
      destruct (String.eqb_spec q (output_dir a ++ "/best_model")); [contradiction|].
      reflexivity.
    - assert (~ best_verifiability ls <= v) as Hn.
      { intros Hq. apply Qle_bool_iff in Hq. congruence. }
      destruct (Hno Hn) as (Hck1 & Hb1 & Ht1).
      exists []. rewrite app_nil_r. repeat split; auto.
      intros q _. rewrite Hck1. reflexivity. }
  exists (base ++ tb ++ [PrintLoss accB] ++ dev_evaluation_events a (iteration + 1) preds fw
            ++ save), v.
  split.
  { rewrite Hts, HtE, Httb, Htb, <- !app_assoc. reflexivity. }
  rewrite !count_app, !epoch_losses_app, !backward_losses_app, !printed_scores_app.
  rewrite Bap, Bdu, Bsa, Bel, Bbl, T1, T2, T3, T4, T5, E1, E2, E3, E4, E5, E6,
    S1, S2, S3, S4, S5, S6.
  simpl.
  split; [destruct (iteration =? 0)%Z; reflexivity|].
  split; [destruct (iteration =? 0)%Z; reflexivity|].
  split.
  { exists accB. split; [reflexivity|].
    rewrite app_nil_r. rewrite Hacc. ring. }
  split.
  { exists (printed_scores base). rewrite Hv. split; [reflexivity | exact Bps]. }
  split; [exact Sbest|].
  split; [destruct (Qle_bool _ _); reflexivity|].
  split; [rewrite Hmdl, HmE; reflexivity|].
  split; [congruence|].
  split; [congruence|].
  intros q Hq. rewrite (Sck q Hq). congruence.
Qed.

(** ** What a run of epochs prints and writes *)

Lemma best_after_decision (best v : Q) :
  best <= (if Qle_bool best v then v else best) /\
  v <= (if Qle_bool best v then v else best).
Proof.
  destruct (Qle_bool best v) eqn:H.
  - apply Qle_bool_iff in H. split; [exact H | apply Qle_refl].
  - split; [apply Qle_refl|].
    apply Qlt_le_weak. apply Qnot_le_lt. intros Hq.
    apply Qle_bool_iff in Hq. congruence.
Qed.

Lemma train_epochs_summary (a : args) (dev_set : list (sample states)) (iterations : list Z) :
  forall (ls ls' : loop_state) (w w' : world),
    train_epochs a dev_set ls iterations w = (inr ls', w') ->
    exists t : list event,
      trace w' = trace w ++ t /\
      count is_append_results t =
        Z.of_nat (List.length iterations + count_occ Z.eq_dec iterations 0%Z) /\
      count is_dump t =
        Z.of_nat (List.length iterations + count_occ Z.eq_dec iterations 0%Z) /\
      List.length (epoch_losses t) = List.length iterations /\
      Qsum (epoch_losses t) == Qsum (backward_losses t) /\
      (0 <= count is_save t <= Z.of_nat (List.length iterations))%Z /\
      best_verifiability ls <= best_verifiability ls' /\
      (Forall (fun it => (0 <= it)%Z) iterations ->
       (forall (it : Z) (v : Q),
          In (it, v) (printed_scores t) -> it <> 0%Z -> v <= best_verifiability ls') /\
       (best_verifiability ls' = best_verifiability ls \/
        exists (it : Z) (v : Q),
          In (it, v) (printed_scores t) /\ it <> 0%Z /\ best_verifiability ls' = v)) /\
      (iterations <> [] -> training (mdl ls') = false) /\
      fs w' = fs w /\ grad_enabled w' = grad_enabled w /\
      (forall q : string,
         q <> (output_dir a ++ "/best_model")%string -> checkpoints w' q = checkpoints w q).
Proof.
  induction iterations as [|i rest IH]; intros ls ls' w w' H.
  - simpl in H. inversion H. subst. exists []. rewrite app_nil_r. simpl.
    unfold count. simpl.
    split; [reflexivity|]. split; [reflexivity|]. split; [reflexivity|].
    split; [reflexivity|]. split; [reflexivity|]. split; [lia|].
    split; [apply Qle_refl|].
    split.
    { intros _. split; [intros it v [] | left; reflexivity]. }
    split; [intros Hn; contradiction|].
    auto.
  - simpl in H. unfold bind in H.
    destruct (train_epoch a dev_set ls i w) as [[e|ls1] w1] eqn:He; [discriminate|].
    apply train_epoch_summary in He.
    destruct He as (t1 & v1 & Ht1 & A1 & D1 & (x & L1 & Lx) & (pre & P1 & Ppre) & B1 & S1
                    & M1 & F1 & G1 & C1).
    pose proof H as Hraw.
    apply IH in H.
    destruct H as (t2 & Ht2 & A2 & D2 & L2 & Q2 & S2 & Mono2 & Sc2 & Mode2 & F2 & G2 & C2).
    destruct (best_after_decision (best_verifiability ls) v1) as [Hle1 Hv1].
    rewrite <- B1 in Hle1, Hv1.
    exists (t1 ++ t2).
    split; [rewrite Ht2, Ht1, <- app_assoc; reflexivity|].
    rewrite !count_app, epoch_losses_app, backward_losses_app, printed_scores_app.
    rewrite A1, A2, D1, D2, S1, length_app, L1, L2.
    split.
    { cbn [List.length count_occ].
      destruct (Z.eq_dec i 0) as [E|E]; destruct (Z.eqb_spec i 0); try contradiction; lia. }
    split.
    { cbn [List.length count_occ].
      destruct (Z.eq_dec i 0) as [E|E]; destruct (Z.eqb_spec i 0); try contradiction; lia. }
    split; [reflexivity|].
    split.
    { rewrite !Qsum_app, Q2. unfold Qsum at 1. simpl. rewrite Lx. ring. }
    split.
    { simpl List.length. destruct (Qle_bool (best_verifiability ls) v1); lia. }
    split; [eapply Qle_trans; eauto|].
    split.
    { intros Hpos. inversion Hpos as [|? ? Hi Hrest]. subst.
      destruct (Sc2 Hrest) as [Hall Hex].
      split.
      - intros it v Hin Hit. apply in_app_or in Hin. destruct Hin as [Hin|Hin].
        + rewrite P1 in Hin. apply in_app_or in Hin. destruct Hin as [Hin|Hin].
          * pose proof (proj1 (Forall_forall _ _) Ppre (it, v) Hin) as Hz.
            simpl in Hz. contradiction.
          * destruct Hin as [Hin|[]]. inversion Hin. subst.
            eapply Qle_trans; [exact Hv1 | exact Mono2].
        + apply (Hall it v); assumption.
      - destruct Hex as [Hsame | (it & v & Hin & Hit & Hb)].
        + rewrite Hsame, B1.
          destruct (Qle_bool (best_verifiability ls) v1); [|left; reflexivity].
          right. exists (i + 1)%Z, v1.
          split; [|split; [lia | reflexivity]].
          apply in_or_app. left. rewrite P1. apply in_or_app. right. left. reflexivity.
        + right. exists it, v. split; [|auto].
          apply in_or_app. right. exact Hin. }
    split.
    { intros _. destruct rest as [|j rest'].
      - simpl in Hraw. inversion Hraw. subst. exact M1.
      - apply Mode2. discriminate. }
    split; [congruence|]. split; [congruence|].
    intros q Hq. rewrite (C2 q Hq). apply C1. exact Hq.
Qed.

(** ** A whole training run *)

Lemma range_length (n : Z) : List.length (range n) = Z.to_nat n.
Proof. unfold range. rewrite length_map, length_seq. reflexivity. Qed.

Lemma range_nonnegative (n : Z) : Forall (fun it => (0 <= it)%Z) (range n).
Proof.
  unfold range. apply Forall_forall. intros it Hin.
  apply in_map_iff in Hin. destruct Hin as (k & Hk & _). lia.
Qed.

Lemma no_zero_after (k s : nat) :
  count_occ Z.eq_dec (map Z.of_nat (seq (S s) k)) 0%Z = 0%nat.
Proof.
  revert s. induction k as [|k IH]; intros s; simpl; [reflexivity|].
  destruct (Z.eq_dec (Z.pos (Pos.of_succ_nat s)) 0); [discriminate|].
  apply IH.
Qed.

Lemma range_zeros (n : Z) :
  count_occ Z.eq_dec (range n) 0%Z = if (0 <? n)%Z then 1%nat else 0%nat.
Proof.
  unfold range. destruct (Z.ltb_spec 0 n) as [H|H].
  - destruct (Z.to_nat n) as [|k] eqn:E; [lia|].
    cbn [seq map count_occ]. change (Z.of_nat 0) with 0%Z.
    destruct (Z.eq_dec 0 0); [|contradiction].
    rewrite no_zero_after. reflexivity.
  - replace (Z.to_nat n) with 0%nat by lia. reflexivity.
Qed.

Lemma train_steps (a : args) (m : module) (w w' : world) (ls' : loop_state) :
  train a m w = (inr ls', w') ->
  gradient_accumulation_steps a <> 0%Z /\
  train_epochs a (read_json_data "../data/Propara/dev_conversion.json")
    (initial_loop_state a m
       (train_set_len (max_train_data a) / gradient_accumulation_steps a
        * num_train_epochs a))
    (range (num_train_epochs a)) w = (inr ls', w').
Proof.
  unfold train, bind, floor_div. cbv zeta.
  destruct (Z.eqb_spec (gradient_accumulation_steps a) 0) as [E|E]; [discriminate|].
  unfold ret. intros H. split; [exact E | exact H].
Qed.

(** A training run that completes appends one record to the results
    log and writes one predictions file for every evaluation it makes:
    one per epoch and one more, the baseline, when there is at least one
    epoch; it prints one loss per epoch and saves at most one checkpoint
    per epoch. *)
Lemma training_logs_one_record_per_evaluation (a : args) (m : module) (w w' : world)
    (ls' : loop_state) :
  train a m w = (inr ls', w') ->
  exists t : list event,
    trace w' = trace w ++ t /\
    count is_append_results t =
      (if (0 <? num_train_epochs a)%Z then num_train_epochs a + 1 else 0)%Z /\
    count is_dump t =
      (if (0 <? num_train_epochs a)%Z then num_train_epochs a + 1 else 0)%Z /\
    Z.of_nat (List.length (epoch_losses t)) = Z.max 0 (num_train_epochs a) /\
    (0 <= count is_save t <= Z.max 0 (num_train_epochs a))%Z.
Proof.
  intros H. apply train_steps in H. destruct H as [_ H].
  apply train_epochs_summary in H.
  destruct H as (t & Ht & A & D & L & _ & S & _).
  exists t. rewrite A, D, L, range_length, range_zeros in *.
  split; [exact Ht|].
  destruct (Z.ltb_spec 0 (num_train_epochs a)); repeat split; lia.
Qed.

(** When a training run completes, [best_verifiability] is at least the
    verifiability of every epoch's evaluation and is either still the
    initial -1 or the verifiability of one of them.  The baseline
    evaluation (iteration label 0) takes no part in this. *)
Lemma best_verifiability_is_the_best_epoch (a : args) (m : module) (w w' : world)
    (ls' : loop_state) :
  train a m w = (inr ls', w') ->
  exists t : list event,
    trace w' = trace w ++ t /\
    (forall (it : Z) (v : Q),
       In (it, v) (printed_scores t) -> it <> 0%Z -> v <= best_verifiability ls') /\
    (best_verifiability ls' = -1 \/
     exists (it : Z) (v : Q),
       In (it, v) (printed_scores t) /\ it <> 0%Z /\ best_verifiability ls' = v).
Proof.
  intros H. apply train_steps in H. destruct H as [_ H].
  apply train_epochs_summary in H.
  destruct H as (t & Ht & _ & _ & _ & _ & _ & _ & Sc & _).
  destruct (Sc (range_nonnegative _)) as [Hall Hex].
  exists t. auto.
Qed.

(** The loss printed at the end of an epoch is the sum of the losses
    that were handed to the backward pass during that epoch, that is, of
    the batch losses after the division by the accumulation window. *)
Lemma epoch_loss_is_the_sum_of_the_backward_losses
    (a : args) (dev_set : list (sample states)) (ls ls' : loop_state) (iteration : Z)
    (w w' : world) :
  train_epoch a dev_set ls iteration w = (inr ls', w') ->
  exists (t : list event) (x : Q),
    trace w' = trace w ++ t /\
    epoch_losses t = [x] /\
    x == Qsum (backward_losses t).
Proof.
  intros H. apply train_epoch_summary in H.
  destruct H as (t & v & Ht & _ & _ & (x & Hx & Hsum) & _).
  exists t, x. auto.
Qed.

(** After a training run of at least one epoch the module is in
    evaluation mode: the last thing an epoch does to it is [model.eval()]. *)
Lemma train_leaves_the_module_in_evaluation_mode (a : args) (m : module) (w w' : world)
    (ls' : loop_state) :
  (0 < num_train_epochs a)%Z ->
  train a m w = (inr ls', w') ->
  training (mdl ls') = false.
Proof.
  intros HE H. apply train_steps in H. destruct H as [_ H].
  apply train_epochs_summary in H.
  destruct H as (t & _ & _ & _ & _ & _ & _ & _ & _ & Mode & _).
  apply Mode. intros Hnil.
  pose proof (range_length (num_train_epochs a)) as Hl.
  rewrite Hnil in Hl. simpl in Hl. lia.
Qed.

(** Without epochs [train] does nothing at all: the baseline evaluation
    is inside the loop over the epochs, so nothing is evaluated, printed
    or saved, and the module is returned as it came. *)
Lemma train_without_epochs (a : args) (m : module) (w : world) :
  (num_train_epochs a <= 0)%Z ->
  gradient_accumulation_steps a <> 0%Z ->
  train a m w =
    (inr (initial_loop_state a m
            (train_set_len (max_train_data a) / gradient_accumulation_steps a
             * num_train_epochs a)), w).
Proof.
  intros HE HN. unfold train, bind, floor_div. cbv zeta.
  destruct (Z.eqb_spec (gradient_accumulation_steps a) 0) as [E|E]; [contradiction|].
  unfold ret, range. replace (Z.to_nat (num_train_epochs a)) with 0%nat by lia.
  reflexivity.
Qed.

(** An accumulation window of zero makes [train] fail on line 81, before
    anything is evaluated, printed or written. *)
Lemma train_with_window_zero (a : args) (m : module) (w : world) :
  gradient_accumulation_steps a = 0%Z ->
  train a m w = (inl ZeroDivisionError, w).
Proof.
  intros HN. unfold train, bind, floor_div. rewrite HN. reflexivity.
Qed.

(** ** What training leaves alone *)

Lemma touches_only_ret (path : string) (A : Type) (x : A) : touches_only path (ret x).
Proof. intros w. simpl. auto. Qed.

Lemma touches_only_raise (path : string) (A : Type) (e : exn) :
  touches_only path (@raise C A e).
Proof. intros w. simpl. auto. Qed.

Lemma touches_only_emit (path : string) (e : event) : touches_only path (emit e).
Proof. intros w. simpl. auto. Qed.

Lemma touches_only_draw (path : string) (A : Type)
    (f : rngs generator -> A * rngs generator) : touches_only path (draw f).
Proof. intros w. unfold draw. destruct (f (rng w)). simpl. auto. Qed.

Lemma touches_only_get_grad_enabled (path : string) : touches_only path get_grad_enabled.
Proof. intros w. simpl. auto. Qed.

Lemma touches_only_bind (path : string) (A B : Type) (c : M A) (k : A -> M B) :
  touches_only path c -> (forall x, touches_only path (k x)) -> touches_only path (bind c k).
Proof.
  intros Hc Hk w. unfold bind.
  destruct (Hc w) as (Hfs & Hg & Hck).
  destruct (c w) as [[e|x] w1]; simpl in *; [auto|].
  destruct (Hk x w1) as (Hfs' & Hg' & Hck').
  split; [congruence|]. split; [congruence|].
  intros q Hq. rewrite (Hck' q Hq). apply Hck. exact Hq.
Qed.

Lemma touches_only_for_each (path : string) (A B : Type) (f : A -> M B) (l : list A) :
  (forall x, touches_only path (f x)) -> touches_only path (for_each f l).
Proof.
  intros Hf. induction l as [|x rest IH]; simpl.
  - apply touches_only_ret.
  - apply touches_only_bind; [apply Hf|]. intros y.
    apply touches_only_bind; [apply IH|]. intros ys. apply touches_only_ret.
Qed.

(** [torch.no_grad()] gives the previous tracking mode back whatever
    its body does to it, also when the body raises. *)
Lemma touches_only_no_grad (path : string) (A : Type) (c : M A) :
  touches_only path c -> touches_only path (no_grad c).
Proof.
  intros Hc w. unfold no_grad.
  destruct (Hc (set_grad_enabled w false)) as (Hfs & Hg & Hck).
  destruct (c (set_grad_enabled w false)) as [r w1]. simpl in *. auto.
Qed.

Lemma touches_only_torch_save (path : string) (p : state_dict) :
  touches_only path (torch_save path p).
Proof.
  intros w. unfold torch_save. simpl. repeat split.
  intros q Hq. destruct (String.eqb_spec q path); [contradiction | reflexivity].
Qed.

Lemma touches_only_modulo (path : string) (x y : Z) : touches_only path (modulo x y).
Proof.
  unfold modulo. destruct (y =? 0)%Z; [apply touches_only_raise | apply touches_only_ret].
Qed.

Lemma touches_only_floor_div (path : string) (x y : Z) : touches_only path (floor_div x y).
Proof.
  unfold floor_div. destruct (y =? 0)%Z; [apply touches_only_raise | apply touches_only_ret].
Qed.

Ltac touches_only_step :=
  lazymatch goal with
  | |- touches_only _ (bind _ _) => apply touches_only_bind; [| intros ?]
  | |- touches_only _ (ret _) => apply touches_only_ret
  | |- touches_only _ (raise _) => apply touches_only_raise
  | |- touches_only _ (emit _) => apply touches_only_emit
  | |- touches_only _ (draw _) => apply touches_only_draw
  | |- touches_only _ get_grad_enabled => apply touches_only_get_grad_enabled
  | |- touches_only _ (no_grad _) => apply touches_only_no_grad
  | |- touches_only _ (for_each _ _) => apply touches_only_for_each; intros ?
  | |- touches_only _ (torch_save _ _) => apply touches_only_torch_save
  | |- touches_only _ (modulo _ _) => apply touches_only_modulo
  | |- touches_only _ (floor_div _ _) => apply touches_only_floor_div
  | |- touches_only _ (if ?b then _ else _) => destruct b
  | |- touches_only _ (match ?x with _ => _ end) => destruct x
  end.

Lemma touches_only_test_model_conversion (path : string) (a : args) (m : module)
    (test_set : list (sample states)) (name : string) (iteration : Z) :
  touches_only path (test_model_conversion a m test_set name iteration).
Proof.
  unfold test_model_conversion, sample_prediction. cbv zeta.
  touches_only_step.
  - touches_only_step. touches_only_step.
    unfold entity_prediction, question_of, first_row_softmax.
    repeat touches_only_step.
  - repeat touches_only_step.
Qed.

Lemma touches_only_evaluate_dev (path : string) (a : args) (m : module)
    (dev_set : list (sample states)) (iteration : Z) :
  touches_only path (evaluate_dev a m dev_set iteration).
Proof.
  unfold evaluate_dev. cbv zeta.
  touches_only_step.
  - touches_only_step. apply touches_only_test_model_conversion.
  - repeat touches_only_step.
Qed.

Lemma touches_only_batch_loop (path : string) (a : args) (bs : list batch) :
  forall (ls : loop_state) (acc : Q), touches_only path (batch_loop a ls acc bs).
Proof.
  induction bs as [|b rest IH]; intros ls acc; simpl.
  - apply touches_only_ret.
  - apply touches_only_bind; [|intros r; apply IH].
    unfold batch_iteration, optimizer_update. cbv zeta.
    repeat touches_only_step.
Qed.

Lemma touches_only_train_epoch (a : args) (dev_set : list (sample states)) (ls : loop_state)
    (iteration : Z) :
  touches_only (output_dir a ++ "/best_model") (train_epoch a dev_set ls iteration).
Proof.
  unfold train_epoch, baseline_evaluation, save_if_best. cbv zeta.
  touches_only_step.
  { touches_only_step; [| touches_only_step].
    touches_only_step; [apply touches_only_evaluate_dev | touches_only_step]. }
  touches_only_step; [touches_only_step|].
  touches_only_step; [apply touches_only_batch_loop|].
  touches_only_step; [touches_only_step|].
  touches_only_step; [apply touches_only_evaluate_dev|].
  repeat touches_only_step.
Qed.

Lemma touches_only_train_epochs (a : args) (dev_set : list (sample states))
    (iterations : list Z) :
  forall ls : loop_state,
    touches_only (output_dir a ++ "/best_model") (train_epochs a dev_set ls iterations).
Proof.
  induction iterations as [|i rest IH]; intros ls; simpl.
  - apply touches_only_ret.
  - apply touches_only_bind; [apply touches_only_train_epoch|].
    intros ls'. apply IH.
Qed.

(** Whether it returns or raises, [train] gives gradient tracking back
    as it found it, although every dev evaluation switches it off, and
    saves parameters to no file other than [best_model] in the output
    directory. *)
Lemma train_writes_only_best_model (a : args) (m : module) (w : world) :
  grad_enabled (snd (train a m w)) = grad_enabled w /\
  forall q : string,
    q <> (output_dir a ++ "/best_model")%string ->
    checkpoints (snd (train a m w)) q = checkpoints w q.
Proof.
  assert (touches_only (output_dir a ++ "/best_model") (train a m)) as H.
  { unfold train. cbv zeta.
    touches_only_step; [touches_only_step|].
    apply touches_only_train_epochs. }
  apply H.
Qed.

(** ** The schedule and the steps taken *)






(** ** The driver *)

Lemma choose_output_dir_returns (parsed : args) (w : world) :
  exists a : args,
    choose_output_dir parsed w = (inr a, w) /\
    do_train a = do_train parsed /\
    do_eval a = do_eval parsed /\
    gradient_accumulation_steps a = gradient_accumulation_steps parsed /\
    num_train_epochs a = num_train_epochs parsed /\
    seed a = seed parsed.
Proof.
  unfold choose_output_dir, bind, os_path_exists, ret.
  eexists. split; [reflexivity|].
  destruct (do_train parsed || negb (do_train parsed) && _); repeat split.
Qed.

Lemma preparation_events_prepare (a : args) (w : world) :
  Forall preparation_event (preparation_events a w).
Proof.
  unfold preparation_events.
  apply Forall_app. split; [|apply Forall_app; split].
  - destruct (fs w (output_dir a)) as [| |[|e es]]; try constructor.
    destruct (do_train a); repeat constructor.
  - destruct (path_exists _); repeat constructor.
  - destruct (do_train a); repeat constructor.
Qed.

Ltac run_preparation E :=
  repeat (progress
            (cbn [path_exists is_regular_file fs checkpoints rng grad_enabled trace fst snd
                  negb andb app];
             rewrite ?E)).

Lemma main_from_prepared (parsed a : args) (w : world) :
  choose_output_dir parsed w = (inr a, w) ->
  can_prepare a w = true ->
  main parsed w = load_train_evaluate (set_device a) (prepared a w).
Proof.
  intros Hc Hp. unfold can_prepare in Hp. apply andb_true_iff in Hp.
  destruct Hp as [Hseed Hdir].
  unfold main. unfold bind at 1. rewrite Hc.
  unfold bind at 1. unfold warn_if_not_empty, run, prepared, preparation_events.
  unfold load_train_evaluate.
  unfold bind, os_path_exists, os_listdir, os_makedirs, emit, ret, set_seed, draw.
  unfold set_rng, set_trace, set_fs.
  cbn [output_dir set_device do_train do_eval model n_gpu seed fst snd
       fs checkpoints rng grad_enabled trace].
  rewrite Hseed.
  destruct (fs w (output_dir a)) as [| |[|e es]] eqn:E; [|discriminate| |];
    try (apply negb_true_iff in Hdir; rewrite ?Hdir);
    destruct (do_train a) eqn:D;
    run_preparation E;
    try rewrite Hdir;
    run_preparation E;
    destruct (from_pretrained _ _) as [loaded r];
    cbn [path_exists fs checkpoints rng grad_enabled trace fst snd app Z.ltb Z.compare];
    rewrite <- ?app_assoc; cbn [app]; rewrite ?app_nil_r;
    reflexivity.
Qed.

(** When lines 188-202 do not go through, all that has happened are
    the warning, the creation of the directory and the copies. *)
Lemma main_stops_in_preparation (parsed a : args) (w : world) :
  choose_output_dir parsed w = (inr a, w) ->
  can_prepare a w = false ->
  exists (e : exn) (t : list event) (w' : world),
    main parsed w = (inl e, w') /\
    trace w' = trace w ++ t /\
    Forall preparation_event t /\
    checkpoints w' = checkpoints w /\
    grad_enabled w' = grad_enabled w.
Proof.
  intros Hc Hp. unfold can_prepare in Hp.
  unfold main. unfold bind at 1. rewrite Hc.
  unfold bind at 1. unfold warn_if_not_empty, run.
  unfold bind, os_path_exists, os_listdir, os_makedirs, emit, ret, set_seed, draw.
  unfold set_rng, set_trace, set_fs.
  cbn [output_dir set_device do_train do_eval model n_gpu seed fst snd
       fs checkpoints rng grad_enabled trace].
  destruct (fs w (output_dir a)) as [| |[|e es]] eqn:E.
  - run_preparation E.
    destruct (existsb (fun q => is_regular_file (fs w q)) (ancestors (output_dir a))) eqn:Ha.
    + exists NotADirectoryError, [], w. rewrite app_nil_r. repeat split. constructor.
    + run_preparation E.
      rewrite andb_true_r in Hp. rewrite Hp.
      destruct (do_train a); run_preparation E; eexists _, _, _;
        (split; [reflexivity|]); cbn [trace checkpoints grad_enabled];
        (split; [first [rewrite <- ?app_assoc; reflexivity | symmetry; apply app_nil_r]|]);
        repeat split; repeat constructor.
  - run_preparation E.
    exists NotADirectoryError, [], w. rewrite app_nil_r. repeat split. constructor.
  - run_preparation E. rewrite andb_true_r in Hp. rewrite Hp.
    destruct (do_train a); run_preparation E; eexists _, _, _;
      (split; [reflexivity|]); cbn [trace checkpoints grad_enabled];
      (split; [first [rewrite <- ?app_assoc; reflexivity | symmetry; apply app_nil_r]|]);
      repeat split; repeat constructor.
  - run_preparation E. rewrite andb_true_r in Hp. rewrite Hp.
    destruct (do_train a); run_preparation E; eexists _, _, _;
      (split; [reflexivity|]); cbn [trace checkpoints grad_enabled];
      (split; [first [rewrite <- ?app_assoc; reflexivity | symmetry; apply app_nil_r]|]);
      repeat split; repeat constructor.
Qed.

(** If the chosen output path exists but is a regular file, the check of
    line 188 itself fails: [os.listdir] raises, with or without
    [--do_train], before anything is created, printed or seeded. *)
Lemma main_fails_on_a_regular_file (parsed a : args) (w : world) :
  choose_output_dir parsed w = (inr a, w) ->
  fs w (output_dir a) = RegularFile ->
  main parsed w = (inl NotADirectoryError, w).
Proof.
  intros Hc Hf. unfold main. unfold bind at 1. rewrite Hc.
  unfold bind at 1. unfold warn_if_not_empty, bind, os_path_exists, os_listdir.
  rewrite Hf. simpl. rewrite Hf. reflexivity.
Qed.



Lemma or_parameter_count (t : list event) :
  Forall preparation_event t ->
  Forall (fun ev => preparation_event ev \/ ev = PrintParameterCount) t.
Proof.
  intros H. eapply Forall_impl; [|exact H]. intros ev Hev. left. exact Hev.
Qed.

(** [--do_train] with an accumulation window of zero never trains,
    whatever the file system and the seed are: the run raises, and all
    it has done by then is to prepare the output directory and, if it
    got that far, to load the model and print its parameter count.  No
    model call is made, nothing is evaluated and no parameters are
    saved. *)
Lemma main_with_window_zero (parsed : args) (w : world) :
  do_train parsed = true ->
  gradient_accumulation_steps parsed = 0%Z ->
  exists (e : exn) (t : list event),
    fst (main parsed w) = inl e /\
    trace (snd (main parsed w)) = trace w ++ t /\
    Forall (fun ev => preparation_event ev \/ ev = PrintParameterCount) t /\
    checkpoints (snd (main parsed w)) = checkpoints w.
Proof.
  intros Hd HN.
  destruct (choose_output_dir_returns parsed w) as (a & Hc & Hda & _ & HNa & _).
  rewrite <- Hda in Hd. rewrite <- HNa in HN.
  destruct (can_prepare a w) eqn:Hp.
  - assert (Forall (fun ev => preparation_event ev \/ ev = PrintParameterCount)
              (preparation_events a w ++ [PrintParameterCount])) as HF.
    { apply Forall_app. split.
      - apply or_parameter_count, preparation_events_prepare.
      - constructor; [right; reflexivity | constructor]. }
    rewrite (main_from_prepared _ _ _ Hc Hp).
    unfold load_train_evaluate, bind, draw, emit. cbn [do_train set_device model].
    destruct (from_pretrained (model a) (rng (prepared a w))) as [loaded r].
    rewrite Hd. rewrite train_with_window_zero by exact HN.
    exists ZeroDivisionError, (preparation_events a w ++ [PrintParameterCount]).
    simpl. rewrite <- app_assoc. repeat split. exact HF.
  - destruct (main_stops_in_preparation _ _ _ Hc Hp) as (e & t & w' & He & Ht & HP & Hck & _).
    exists e, t. rewrite He. repeat split; try assumption.
    apply or_parameter_count. exact HP.
Qed.

(** [--do_eval] needs a checkpoint: when [best_model] is not in the
    chosen output directory and training is off, or on with no epoch to
    run, the run raises, whatever the file system and the seed are, and
    all it has done by then is to prepare the output directory and, if
    it got that far, to load the pretrained model and print its
    parameter count.  No test prediction is made, written or scored. *)
Lemma evaluation_needs_a_checkpoint (parsed a : args) (w : world) :
  choose_output_dir parsed w = (inr a, w) ->
  do_eval a = true ->
  do_train a = false \/ (num_train_epochs a <= 0)%Z ->
  checkpoints w (output_dir a ++ "/best_model")%string = None ->
  exists (e : exn) (t : list event),
    fst (main parsed w) = inl e /\
    trace (snd (main parsed w)) = trace w ++ t /\
    Forall (fun ev => preparation_event ev \/ ev = PrintParameterCount) t.
Proof.
  intros Hc He Hno Hck.
  destruct (can_prepare a w) eqn:Hp.
  - assert (Forall (fun ev => preparation_event ev \/ ev = PrintParameterCount)
              (preparation_events a w ++ [PrintParameterCount])) as HF.
    { apply Forall_app. split.
      - apply or_parameter_count, preparation_events_prepare.
      - constructor; [right; reflexivity | constructor]. }
    rewrite (main_from_prepared _ _ _ Hc Hp).
    unfold load_train_evaluate, bind, draw, emit. cbn [do_train do_eval set_device model].
    destruct (from_pretrained (model a) (rng (prepared a w))) as [loaded r].
    rewrite He.
    destruct (do_train a) eqn:Hd.
    + destruct Hno as [Hn | HE]; [discriminate|].
      destruct (Z.eq_dec (gradient_accumulation_steps a) 0) as [HN|HN].
      * rewrite train_with_window_zero by exact HN.
        exists ZeroDivisionError, (preparation_events a w ++ [PrintParameterCount]).
        simpl. rewrite <- app_assoc. repeat split. exact HF.
      * rewrite train_without_epochs by assumption.
        unfold ret, final_evaluation, bind. cbn [output_dir set_device].
        simpl. rewrite Hck.
        exists FileNotFoundError, (preparation_events a w ++ [PrintParameterCount]).
        simpl. rewrite <- app_assoc. repeat split. exact HF.
    + unfold ret, final_evaluation, bind. cbn [output_dir set_device].
      simpl. rewrite Hck.
      exists FileNotFoundError, (preparation_events a w ++ [PrintParameterCount]).
      simpl. rewrite <- app_assoc. repeat split. exact HF.
  - destruct (main_stops_in_preparation _ _ _ Hc Hp) as (e & t & w' & Hf & Ht & HP & _).
    exists e, t. rewrite Hf. repeat split; try assumption.
    apply or_parameter_count. exact HP.
Qed.

(** ** The checkpoint after training *)

Lemma train_epoch_checkpoint (a : args) (dev_set : list (sample states))
    (ls ls' : loop_state) (iteration : Z) (w w' : world) :
  train_epoch a dev_set ls iteration w = (inr ls', w') ->
  exists preds : predictions,
    (Qle_bool (best_verifiability ls) (snd (scored "dev_conversion" preds)) = true ->
     exists p : state_dict, checkpoints w' (output_dir a ++ "/best_model")%string = Some p) /\
    (Qle_bool (best_verifiability ls) (snd (scored "dev_conversion" preds)) = false ->
     checkpoints w' (output_dir a ++ "/best_model")%string =
     checkpoints w (output_dir a ++ "/best_model")%string) /\
    best_verifiability ls' =
      (if Qle_bool (best_verifiability ls) (snd (scored "dev_conversion" preds))
       then snd (scored "dev_conversion" preds) else best_verifiability ls).
Proof.
  intros H. apply train_epoch_steps in H.
  destruct H as (ls0 & lsB & w0 & wB & wE & accB & v & mE & H0 & Hb & He & Hs).
  assert (best_verifiability ls0 = best_verifiability ls /\ checkpoints w0 = checkpoints w)
    as [Hbest0 Hck0].
  { apply baseline_evaluation_steps in H0.
    destruct H0 as [(_ & m0 & v0 & Hev & Hls0) | (_ & Hls0 & Hw0)].
    - apply evaluate_dev_events in Hev.
      destruct Hev as (_ & _ & _ & _ & _ & _ & _ & Hck & _). subst. auto.
    - subst. auto. }
  pose proof (batch_loop_keep_best _ _ _ _ _ _ _ _ Hb) as HbestB. simpl in HbestB.
  apply batch_loop_steps in Hb.
  destruct Hb as (_ & _ & _ & _ & _ & _ & _ & _ & HckB & _). simpl in HckB.
  apply evaluate_dev_events in He.
  destruct He as (_ & preds & _ & _ & Hv & _ & _ & HckE & _). simpl in HckE.
  destruct (save_if_best_spec a (set_mdl lsB mE) v wE)
    as (ls'' & w'' & Hs' & _ & _ & _ & _ & _ & Hyes & Hno & _).
  rewrite Hs in Hs'. inversion Hs'. subst ls'' w''. clear Hs'.
  simpl in Hyes, Hno.
  assert (best_verifiability lsB = best_verifiability ls) as Hbest by congruence.
  rewrite Hbest in Hyes, Hno.
  exists preds. rewrite <- Hv.
  split; [|split].
  - intros Hle. apply Qle_bool_iff in Hle. destruct (Hyes Hle) as (Hp & _).
    eexists. exact Hp.
  - intros Hle.
    assert (~ best_verifiability ls <= v) as Hn.
    { intros Hq. apply Qle_bool_iff in Hq. congruence. }
    destruct (Hno Hn) as (Hck & _). rewrite Hck. congruence.
  - destruct (Qle_bool (best_verifiability ls) v) eqn:Hle.
    + apply Qle_bool_iff in Hle. destruct (Hyes Hle) as (_ & Hb1 & _). exact Hb1.
    + assert (~ best_verifiability ls <= v) as Hn.
      { intros Hq. apply Qle_bool_iff in Hq. congruence. }
      destruct (Hno Hn) as (_ & Hb1 & _). exact Hb1.
Qed.

Lemma train_epochs_keep_a_checkpoint (a : args) (dev_set : list (sample states))
    (iterations : list Z) :
  (forall preds : predictions, -1 <= snd (scored "dev_conversion" preds)) ->
  forall (ls ls' : loop_state) (w w' : world),
    train_epochs a dev_set ls iterations w = (inr ls', w') ->
    (iterations <> [] /\ best_verifiability ls <= -1) \/
      (exists p : state_dict,
         checkpoints w (output_dir a ++ "/best_model")%string = Some p) ->
    exists p : state_dict, checkpoints w' (output_dir a ++ "/best_model")%string = Some p.
Proof.
  intros Hscore. induction iterations as [|i rest IH]; intros ls ls' w w' H Hstart.
  - simpl in H. inversion H. subst.
    destruct Hstart as [[Hne _] | Hp]; [contradiction | exact Hp].
  - simpl in H. unfold bind in H.
    destruct (train_epoch a dev_set ls i w) as [[e|ls1] w1] eqn:He; [discriminate|].
    apply train_epoch_checkpoint in He.
    destruct He as (preds & Hyes & Hno & _).
    apply (IH _ _ _ _ H). right.
    destruct (Qle_bool (best_verifiability ls) (snd (scored "dev_conversion" preds))) eqn:Hle.
    + apply Hyes. reflexivity.
    + destruct Hstart as [[_ Hb] | Hp].
      * exfalso.
        assert (best_verifiability ls <= snd (scored "dev_conversion" preds)) as Hq
          by (eapply Qle_trans; [exact Hb | apply Hscore]).
        apply Qle_bool_iff in Hq. congruence.
      * rewrite (Hno eq_refl). exact Hp.
Qed.

(** When the scorer never returns a verifiability below -1, a training
    run of at least one epoch that completes leaves a [best_model] file
    in the output directory: the first epoch is always saved. *)
Lemma training_leaves_a_checkpoint (a : args) (m : module) (w w' : world)
    (ls' : loop_state) :
  (forall preds : predictions, -1 <= snd (scored "dev_conversion" preds)) ->
  (0 < num_train_epochs a)%Z ->
  train a m w = (inr ls', w') ->
  exists p : state_dict, checkpoints w' (output_dir a ++ "/best_model")%string = Some p.
Proof.
  intros Hscore HE H. apply train_steps in H. destruct H as [_ H].
  apply (train_epochs_keep_a_checkpoint _ _ _ Hscore _ _ _ _ H).
  left. split.
  - intros Hnil. pose proof (range_length (num_train_epochs a)) as Hl.
    rewrite Hnil in Hl. simpl in Hl. lia.
  - simpl. apply Qle_refl.
Qed.

(** ** Mode and tracking during an epoch *)

Lemma forward_flags_forward_events (mode tracking : bool) (t : list event) :
  Forall (forward_event mode tracking) t ->
  Forall (fun f => f = (mode, tracking)) (forward_flags t).
Proof.
  intros H. induction H as [|e t He Ht IH]; simpl; [constructor|].
  destruct e; simpl in *; try contradiction.
  destruct He; subst. constructor; [reflexivity | assumption].
Qed.

Lemma batch_loop_flags (a : args) (bs : list batch) :
  forall (ls ls' : loop_state) (acc acc' : Q) (w w' : world) (t : list event),
    batch_loop a ls acc bs w = (inr (ls', acc'), w') ->
    trace w' = trace w ++ t ->
    forward_flags t = repeat (training (mdl ls), grad_enabled w) (List.length bs).
Proof.
  induction bs as [|b rest IH]; intros ls ls' acc acc' w w' t H Ht.
  - simpl in H. inversion H. subst.
    assert (t = []) as ->; [|reflexivity].
    apply app_inv_head with (l := trace w'). rewrite app_nil_r. symmetry. exact Ht.
  - simpl in H. unfold bind in H.
    destruct (batch_iteration a ls acc b w) as [[e|[ls1 acc1]] w1] eqn:Hb; [discriminate|].
    simpl in H.
    apply batch_iteration_steps in Hb.
    destruct Hb as (q & tail & Ht1 & Htail & _ & _ & Htr & _ & _ & Hg).
    pose proof H as H'.
    apply batch_loop_steps in H'. destruct H' as (t2 & Ht2 & _).
    assert (t = ([Forward (training (mdl ls)) (grad_enabled w); Backward q] ++ tail) ++ t2)
      as ->.
    { apply app_inv_head with (l := trace w).
      rewrite <- Ht, Ht2, Ht1, <- !app_assoc. reflexivity. }
    rewrite !forward_flags_app, (IH _ _ _ _ _ _ t2 H Ht2), Htr, Hg.
    destruct Htail; subst; reflexivity.
Qed.

(** During an epoch the model is called in two ways only: in evaluation
    mode without gradient tracking (the dev evaluations), and in
    training mode with the tracking the process was started in (the
    batches). *)
Lemma epoch_calls_the_model_in_two_ways (a : args) (dev_set : list (sample states))
    (ls ls' : loop_state) (iteration : Z) (w w' : world) :
  train_epoch a dev_set ls iteration w = (inr ls', w') ->
  exists t : list event,
    trace w' = trace w ++ t /\
    Forall (fun f => f = (false, false) \/ f = (true, grad_enabled w)) (forward_flags t).
Proof.
  intros H. apply train_epoch_steps in H.
  destruct H as (ls0 & lsB & w0 & wB & wE & accB & v & mE & H0 & Hb & He & Hs).
  assert (exists base : list event,
            trace w0 = trace w ++ base /\
            Forall (fun f => f = (false, false)) (forward_flags base) /\
            grad_enabled w0 = grad_enabled w) as (base & Htb & Fb & Gb).
  { apply baseline_evaluation_steps in H0.
    destruct H0 as [(_ & m0 & v0 & Hev & Hls0) | (_ & Hls0 & Hw0)].
    - apply evaluate_dev_events in Hev.
      destruct Hev as (_ & preds0 & fw0 & HP0 & _ & Ht0 & _ & _ & Hg0).
      exists (dev_evaluation_events a 0 preds0 fw0). split; [exact Ht0|]. split; [|exact Hg0].
      unfold dev_evaluation_events, evaluation_report.
      rewrite forward_flags_app. simpl. rewrite app_nil_r.
      apply forward_flags_forward_events. exact HP0.
    - subst. exists []. rewrite app_nil_r. repeat split. constructor. }
  pose proof Hb as Hb'.
  apply batch_loop_steps in Hb'.
  destruct Hb' as (tb & Httb & _ & _ & _ & _ & _ & _ & _ & HgB).
  pose proof (batch_loop_flags _ _ _ _ _ _ _ _ _ Hb Httb) as Fl.
  simpl in Fl, Httb, HgB.
  apply evaluate_dev_events in He.
  destruct He as (_ & preds & fw & HP & _ & HtE & _ & _ & _). simpl in HtE.
  destruct (save_if_best_spec a (set_mdl lsB mE) v wE)
    as (ls'' & w'' & Hs' & _ & _ & _ & _ & _ & Hyes & Hno & _).
  rewrite Hs in Hs'. inversion Hs'. subst ls'' w''. clear Hs'.
  assert (exists save : list event,
            trace w' = trace wE ++ save /\ forward_flags save = []) as (save & Hts & Fs).
  { destruct (Qle_bool (best_verifiability (set_mdl lsB mE)) v) eqn:Hle.
    - apply Qle_bool_iff in Hle. destruct (Hyes Hle) as (_ & _ & Ht1).
      eexists. split; [exact Ht1 | reflexivity].
    - assert (~ best_verifiability (set_mdl lsB mE) <= v) as Hn.
      { intros Hq. apply Qle_bool_iff in Hq. congruence. }
      destruct (Hno Hn) as (_ & _ & Ht1).
      exists []. rewrite app_nil_r. auto. }
  exists (base ++ tb ++ [PrintLoss accB] ++ dev_evaluation_events a (iteration + 1) preds fw
            ++ save).
  split.
  { rewrite Hts, HtE, Httb, Htb, <- !app_assoc. reflexivity. }
  rewrite !forward_flags_app, Fl, Fs, Gb.
  unfold dev_evaluation_events, evaluation_report. rewrite forward_flags_app.
  simpl. rewrite !app_nil_r.
  apply Forall_app. split.
  { eapply Forall_impl; [|exact Fb]. intros f Hf. left. exact Hf. }
  apply Forall_app. split.
  { apply Forall_forall. intros f Hin. apply repeat_spec in Hin. right. exact Hin. }
  eapply Forall_impl; [|apply forward_flags_forward_events; exact HP].
  intros f Hf. left. exact Hf.
Qed.

(** ** Training and evaluating in separate runs *)

(** An evaluation-only run looks for [best_model] where a training run
    with the same [--output_dir], data set, model, number of epochs,
    learning rate and seed put it, as soon as that directory exists. *)
Lemma evaluation_finds_the_training_directory (training_args evaluation_args : args)
    (w w2 : world) :
  do_train training_args = true ->
  do_train evaluation_args = false ->
  output_dir evaluation_args = output_dir training_args ->
  dataset_name evaluation_args = dataset_name training_args ->
  model evaluation_args = model training_args ->
  num_train_epochs evaluation_args = num_train_epochs training_args ->
  learning_rate evaluation_args = learning_rate training_args ->
  seed evaluation_args = seed training_args ->
  path_exists (fs w2 (new_out_dir training_args)) = true ->
  exists a1 a2 : args,
    choose_output_dir training_args w = (inr a1, w) /\
    choose_output_dir evaluation_args w2 = (inr a2, w2) /\
    output_dir a2 = output_dir a1 /\
    output_dir a1 = new_out_dir training_args.
Proof.
  intros Ht He Ho Hd Hm Hn Hl Hs Hex.
  assert (new_out_dir evaluation_args = new_out_dir training_args) as Hnew.
  { unfold new_out_dir. rewrite Ho, Hd, Hm, Hn, Hl, Hs. reflexivity. }
  exists (set_output_dir training_args (new_out_dir training_args)),
         (set_output_dir evaluation_args (new_out_dir training_args)).
  unfold choose_output_dir, bind, os_path_exists, ret.
  rewrite Ht, He, Hnew, Hex. simpl. auto.
Qed.

End Properties.

(** * The program on the example instance *)

(** C2: the final test evaluation calls the model with gradient
    tracking on.  Run for evaluation only, the one model call of the
    example is made in evaluation mode but with tracking; run with
    training first, the dev evaluations are made without tracking, the
    training batches with it, and the final test evaluation again with
    tracking, since nothing around it switches tracking off. *)
Theorem final_test_evaluation_tracks_gradients :
  fst (@main example (example_args false true 2 1) example_world_after_training) = inr tt /\
  forward_flags
    (trace (snd (@main example (example_args false true 2 1) example_world_after_training)))
  = [(false, true)] /\
  forward_flags
    (trace (snd (@main example (example_args true true 2 1) (example_world (fun _ => Absent)))))
  = [(false, false); (true, true); (true, true); (true, true); (false, false); (false, true)].
Proof.
  repeat split; vm_compute; reflexivity.
Qed.



(** Three batches per epoch and a window of two: after the first epoch
    the gradient of the third batch is still pending, and the second
    update of a two-epoch run applies it together with the gradient of
    the first batch of the second epoch. *)
Lemma accumulation_state_spans_epochs_witness :
  map (@at_step _) (contributions (grad (mdl example_after_first_epoch))) = [2%Z] /\
  global_step example_after_first_epoch = 3%Z /\
  count is_optimizer_step (trace (snd example_first_epoch)) = 1%Z /\
  match fst (@train example example_training_args example_module
               (example_world (fun _ => Absent))) with
  | inr ls => params (mdl ls)
  | inl _ => []
  end = [[0; 1]; [2; 3]; [4; 5]]%Z.
Proof.
  assert (1 <= gradient_accumulation_steps example_training_args)%Z as HN
    by (simpl; lia).
  assert (pending_ok (gradient_accumulation_steps example_training_args) example_loop_state)
    as Hp by (split; [simpl; lia | reflexivity]).
  assert (@train_epoch example example_training_args example_dev_set example_loop_state 0
            (example_world (fun _ => Absent))
          = (inr example_after_first_epoch, snd example_first_epoch)) as He
    by (vm_compute; reflexivity).
  destruct (proj1 (@accumulation_state_spans_epochs example example_training_args
                     example_dev_set HN)
              example_loop_state example_after_first_epoch 0%Z
              (example_world (fun _ => Absent)) (snd example_first_epoch) Hp He)
    as (_ & Hw & Hb & Ho).
  split; [rewrite Hw; vm_compute; reflexivity|].
  repeat split; vm_compute; reflexivity.
Defined.

(** The first epoch of the example: its verifiability 1/2 is not below
    the initial best of -1, and the file holds the epoch's parameters. *)
Lemma checkpoint_iff_not_worse_witness :
  -1 <= best_verifiability example_after_first_epoch /\
  checkpoints (snd example_first_epoch)
    (output_dir example_training_args ++ "/best_model")%string
  = Some (params (mdl example_after_first_epoch)).
Proof.
  assert (@train_epoch example example_training_args example_dev_set example_loop_state 0
            (example_world (fun _ => Absent))
          = (inr example_after_first_epoch, snd example_first_epoch)) as He
    by (vm_compute; reflexivity).
  destruct (proj1 (proj2 (@checkpoint_iff_not_worse example example_training_args
                            example_dev_set))
              example_loop_state example_after_first_epoch 0%Z
              (example_world (fun _ => Absent)) (snd example_first_epoch) He)
    as (lsB & wB & wE & mE & v & _ & _ & _ & _ & Hle).
  split; [exact Hle|].
  vm_compute. reflexivity.
Defined.

(** Evaluation only, in an output directory that exists and is not
    empty: the run completes and no warning is printed. *)
Lemma no_warning_without_training :
  fs example_world_after_training (@new_out_dir example (example_args false true 2 1))
    = Directory ["best_model"%string] /\
  fst (@main example (example_args false true 2 1) example_world_after_training) = inr tt /\
  existsb is_warning
    (trace (snd (@main example (example_args false true 2 1) example_world_after_training)))
  = false.
Proof.
  repeat split; vm_compute; reflexivity.
Qed.

(** Training in an output directory that exists and is not empty: the
    warning is the first thing printed. *)
Lemma warning_only_when_training_witness :
  exists t : list event,
    trace (snd (@main example example_training_args
                  (example_world (fun _ => Directory ["old"%string]))))
    = [PrintWarning (@new_out_dir example example_training_args)] ++ t.
Proof.
  destruct (@warning_only_when_training example example_training_args
              (set_output_dir example_training_args
                 (@new_out_dir example example_training_args))
              (example_world (fun _ => Directory ["old"%string]))
              "old"%string [])
    as (t & _ & _ & _ & Ht).
  - reflexivity.
  - reflexivity.
  - exists t. exact Ht.
Defined.

(** A batch whose three head losses are absent. *)
Lemma batch_iteration_all_absent_witness :
  fst (@batch_iteration example example_training_args example_loop_state 0 (None, None, None)
         (example_world (fun _ => Absent))) = inl AttributeError.
Proof.
  apply (@batch_iteration_all_absent example). reflexivity.
Defined.

(** The dev set of the example has one sample with one entity: one
    model call, one prediction, and the metrics of the example scorer. *)
Lemma evaluation_writes_one_prediction_per_entity_witness :
  exists (preds : predictions) (fw : list event),
    Forall2 (fun s p => List.length p = List.length (compact_states s))
      example_dev_set preds /\
    trace (snd (example_evaluation example_dev_set)) =
      fw ++ @evaluation_report example example_training_args "dev_conversion" 0 preds /\
    fst (example_evaluation example_dev_set) =
      inr (snd (@scored example "dev_conversion" preds),
           snd (fst (@scored example "dev_conversion" preds)),
           fst (fst (@scored example "dev_conversion" preds))).
Proof.
  assert (example_evaluation example_dev_set =
          (inr (match fst (example_evaluation example_dev_set) with
                | inr r => r
                | inl _ => (0, 0, 0)
                end), snd (example_evaluation example_dev_set))) as E
    by (vm_compute; reflexivity).
  destruct (@evaluation_writes_one_prediction_per_entity example example_training_args
              example_module example_dev_set "dev_conversion" 0%Z
              (example_world (fun _ => Absent)) _ _ E)
    as (preds & fw & Hshape & _ & Ht & Hr & _).
  exists preds, fw. split; [exact Hshape|]. split; [exact Ht|].
  rewrite E. cbn [fst]. rewrite <- Hr. reflexivity.
Defined.

(** The sample of the example followed by one with two entities and a
    single candidate: two model calls are made, the second entity of
    the second sample has no candidate, and nothing is written, also
    not for the first sample. *)
Lemma evaluation_failure_writes_nothing_witness :
  fst (example_evaluation [example_sample; example_short_sample]) = inl IndexError /\
  exists fw : list event,
    trace (snd (example_evaluation [example_sample; example_short_sample])) = fw /\
    Forall (forward_event false true) fw.
Proof.
  destruct (@evaluation_failure_writes_nothing example example_training_args
              example_module [example_sample; example_short_sample] "dev_conversion" 0%Z
              (example_world (fun _ => Absent)))
    as (He & fw & Ht & HP & _).
  - apply Exists_cons_tl, Exists_cons_hd. simpl. lia.
  - split; [exact He|]. exists fw. split; [exact Ht | exact HP].
Defined.

(** Two epochs: three evaluations, three records, three predictions
    files, two printed losses and at most two checkpoints. *)
Lemma training_logs_one_record_per_evaluation_witness :
  exists t : list event,
    trace (snd example_training_run) = t /\
    count is_append_results t = 3%Z /\
    count is_dump t = 3%Z /\
    List.length (epoch_losses t) = 2%nat /\
    (count is_save t <= 2)%Z.
Proof.
  assert (@train example example_training_args example_module
            (example_world (fun _ => Absent))
          = (inr example_trained, snd example_training_run)) as E
    by (vm_compute; reflexivity).
  destruct (@training_logs_one_record_per_evaluation example _ _ _ _ _ E)
    as (t & Ht & Ha & Hd & Hl & Hs).
  exists t. cbn in Ha, Hd, Hl, Hs.
  split; [exact Ht|]. split; [exact Ha|]. split; [exact Hd|].
  split; [apply Nat2Z.inj; exact Hl | apply Hs].
Defined.

(** The two epochs of the example score 1/2 and 1/4: the best is 1/2. *)
Lemma best_verifiability_is_the_best_epoch_witness :
  printed_scores (trace (snd example_training_run)) =
    [(0%Z, 1 # 2); (1%Z, 1 # 2); (2%Z, 1 # 4)] /\
  1 # 2 <= best_verifiability example_trained /\
  1 # 4 <= best_verifiability example_trained.
Proof.
  assert (@train example example_training_args example_module
            (example_world (fun _ => Absent))
          = (inr example_trained, snd example_training_run)) as E
    by (vm_compute; reflexivity).
  assert (printed_scores (trace (snd example_training_run)) =
            [(0%Z, 1 # 2); (1%Z, 1 # 2); (2%Z, 1 # 4)]) as Hp
    by (vm_compute; reflexivity).
  destruct (@best_verifiability_is_the_best_epoch example _ _ _ _ _ E)
    as (t & Ht & Hall & _).
  cbn [trace example_world started app] in Ht. rewrite <- Ht, Hp in Hall.
  split; [exact Hp|].
  split; [apply (Hall 1%Z) | apply (Hall 2%Z)]; simpl; auto; discriminate.
Defined.

(** The first epoch of the example with a window of two: the backward
    losses are 3/2, 3/4 and 1, and 13/4 is printed. *)
Lemma epoch_loss_is_the_sum_of_the_backward_losses_witness :
  exists x : Q,
    epoch_losses (trace (snd example_first_epoch)) = [x] /\
    x == Qsum (backward_losses (trace (snd example_first_epoch))) /\
    x == 13 # 4.
Proof.
  assert (@train_epoch example example_training_args example_dev_set example_loop_state 0
            (example_world (fun _ => Absent))
          = (inr example_after_first_epoch, snd example_first_epoch)) as He
    by (vm_compute; reflexivity).
  destruct (@epoch_loss_is_the_sum_of_the_backward_losses example _ _ _ _ _ _ _ He)
    as (t & x & Ht & Hx & Hsum).
  cbn [trace example_world started app] in Ht. rewrite Ht.
  exists x. split; [exact Hx|]. split; [exact Hsum|].
  rewrite Hsum, <- Ht. vm_compute. reflexivity.
Defined.

(** The example module after two epochs. *)
Lemma train_leaves_the_module_in_evaluation_mode_witness :
  training (mdl example_trained) = false.
Proof.
  apply (@train_leaves_the_module_in_evaluation_mode example example_training_args
           example_module (example_world (fun _ => Absent)) (snd example_training_run)).
  - simpl. lia.
  - vm_compute. reflexivity.
Defined.

(** The example run saves nothing under another name. *)
Lemma train_writes_only_best_model_witness :
  checkpoints (snd example_training_run) "out/last_model"%string = None.
Proof.
  apply (proj2 (@train_writes_only_best_model example example_training_args example_module
                  (example_world (fun _ => Absent))) "out/last_model"%string).
  discriminate.
Defined.


(** The derived output path is a regular file. *)
Lemma main_fails_on_a_regular_file_witness :
  @main example example_training_args (example_world (fun _ => RegularFile))
  = (inl NotADirectoryError, example_world (fun _ => RegularFile)).
Proof.
  apply (@main_fails_on_a_regular_file example example_training_args
           (set_output_dir example_training_args
              (@new_out_dir example example_training_args))).
  - reflexivity.
  - reflexivity.
Defined.



(** [--do_train --do_eval --gradient_accumulation_steps 0] in an empty
    tree. *)
Lemma main_with_window_zero_witness :
  exists (e : exn) (t : list event),
    fst (@main example (example_args true true 0 2) (example_world (fun _ => Absent)))
      = inl e /\
    trace (snd (@main example (example_args true true 0 2)
                  (example_world (fun _ => Absent)))) = t /\
    Forall (fun ev => preparation_event ev \/ ev = PrintParameterCount) t.
Proof.
  destruct (@main_with_window_zero example (example_args true true 0 2)
              (example_world (fun _ => Absent)))
    as (e & t & He & Ht & HF & _).
  - reflexivity.
  - reflexivity.
  - exists e, t. split; [exact He|]. split; [exact Ht | exact HF].
Defined.

(** Evaluation only, in a tree without any checkpoint. *)
Lemma evaluation_needs_a_checkpoint_witness :
  exists (e : exn) (t : list event),
    fst (@main example (example_args false true 2 1) (example_world (fun _ => Absent)))
      = inl e /\
    trace (snd (@main example (example_args false true 2 1)
                  (example_world (fun _ => Absent)))) = t /\
    Forall (fun ev => preparation_event ev \/ ev = PrintParameterCount) t.
Proof.
  destruct (@evaluation_needs_a_checkpoint example (example_args false true 2 1)
              (example_args false true 2 1) (example_world (fun _ => Absent)))
    as (e & t & He & Ht & HF).
  - reflexivity.
  - reflexivity.
  - left. reflexivity.
  - reflexivity.
  - exists e, t. split; [exact He|]. split; [exact Ht | exact HF].
Defined.

(** The example scorer returns 0, 1/4 or 1/2, so the example run leaves
    a checkpoint. *)
Lemma training_leaves_a_checkpoint_witness :
  exists p : @state_dict example,
    checkpoints (snd example_training_run)
      (output_dir example_training_args ++ "/best_model")%string = Some p.
Proof.
  apply (@training_leaves_a_checkpoint example example_training_args example_module
           (example_world (fun _ => Absent)) (snd example_training_run) example_trained).
  - intros preds. unfold scored. cbn [official_evaluate example snd].
    unfold example_verifiability.
    destruct (convert_output_format_complete_conversion preds _) as [|[|[[[|q l1] l2] l3] e] s];
      try (compute; discriminate).
    destruct (Qeq_bool q 3); compute; discriminate.
  - simpl. lia.
  - vm_compute. reflexivity.
Defined.

(** The first epoch of the example: the baseline and the dev evaluation
    run in evaluation mode without tracking, the three batches in
    training mode with it. *)
Lemma epoch_calls_the_model_in_two_ways_witness :
  Forall (fun f => f = (false, false) \/ f = (true, true))
    (forward_flags (trace (snd example_first_epoch))) /\
  forward_flags (trace (snd example_first_epoch)) =
    [(false, false); (true, true); (true, true); (true, true); (false, false)].
Proof.
  assert (@train_epoch example example_training_args example_dev_set example_loop_state 0
            (example_world (fun _ => Absent))
          = (inr example_after_first_epoch, snd example_first_epoch)) as He
    by (vm_compute; reflexivity).
  destruct (@epoch_calls_the_model_in_two_ways example _ _ _ _ _ _ _ He)
    as (t & Ht & HF).
  cbn [trace example_world started app grad_enabled] in Ht, HF.
  split; [rewrite Ht; exact HF | vm_compute; reflexivity].
Defined.

(** A training run in [out] and a later evaluation-only run with the
    same flags, started when the derived directory exists. *)
Lemma evaluation_finds_the_training_directory_witness :
  exists a1 a2 : args,
    @choose_output_dir example example_training_args (example_world (fun _ => Absent))
      = (inr a1, example_world (fun _ => Absent)) /\
    @choose_output_dir example (example_args false true 2 2) example_world_after_training
      = (inr a2, example_world_after_training) /\
    output_dir a2 = output_dir a1.
Proof.
  destruct (@evaluation_finds_the_training_directory example example_training_args
              (example_args false true 2 2) (example_world (fun _ => Absent))
              example_world_after_training
              eq_refl eq_refl eq_refl eq_refl eq_refl eq_refl eq_refl eq_refl eq_refl)
    as (a1 & a2 & H1 & H2 & H3 & _).
  exists a1, a2. auto.
Defined.
